(** * Book scanner: rotation-enhanced cover matching

    A shallow embedding of the matching engine of [app_3.py]
    ([detect_cartoon_book_simple] and [identify_book_with_rotation_enhanced])
    and the properties its specification states about it.

    Conventions of the embedding.
    - Python [float] values (scores, norms, thresholds) are real numbers:
      rounding, infinities and NaN of IEEE arithmetic are not modelled in
      the scorer. The colour statistics of the style heuristic are exact
      rationals, with numpy's NaN for the mean of an empty slice.
    - A numpy 1-D array is a [list R]; numpy's shape errors are explicit.
    - Python exceptions are values of [exn]; code that may raise lives in
      the error monad [exc].
    - The collaborators the function calls (the CLIP model, the image
      rotation, the two database tables) are passed in as arguments. *)

From Stdlib Require Import String Reals Lra Lia ZArith Bool QArith List.
From Stdlib Require Import Sorting.Permutation Sorting.Sorted.
Import ListNotations.

Local Open Scope R_scope.

(** ** Exceptions *)

Module Py.

(** The exceptions the modelled code can raise, each with the text that
    [str(e)] gives. *)
Inductive exn : Type :=
| ValueError (msg : string)
| IndexError (msg : string)
| ZeroDivisionError (msg : string)
| UnidentifiedImageError (msg : string).

Definition str (e : exn) : string :=
  match e with
  | ValueError m | IndexError m | ZeroDivisionError m
  | UnidentifiedImageError m => m
  end.

Inductive exc (A : Type) : Type :=
| Ok (a : A)
| Raise (e : exn).
Arguments Ok {A} a.
Arguments Raise {A} e.

Definition bind {A B : Type} (c : exc A) (k : A -> exc B) : exc B :=
  match c with
  | Ok a => k a
  | Raise e => Raise e
  end.

(** [try: body except Exception as e: handler e] *)
Definition try_except {A : Type} (body : exc A) (handler : exn -> exc A)
  : exc A :=
  match body with
  | Ok a => Ok a
  | Raise e => handler e
  end.

(** [for x in xs: st = body st x], stopping at the first exception. *)
Fixpoint for_each {S X : Type} (body : S -> X -> exc S) (xs : list X) (st : S)
  : exc S :=
  match xs with
  | [] => Ok st
  | x :: xs' => bind (body st x) (for_each body xs')
  end.

(** Python's [a / b] on floats. *)
Definition div (a b : R) : exc R :=
  if Req_dec_T b 0 then Raise (ZeroDivisionError "float division by zero")
  else Ok (a / b).

(** [max(xs)]: the first maximal element; [ValueError] on an empty list. *)
Fixpoint max_from (cur : R) (xs : list R) : R :=
  match xs with
  | [] => cur
  | x :: xs' => max_from (if Rgt_dec x cur then x else cur) xs'
  end.

Definition max (xs : list R) : exc R :=
  match xs with
  | [] => Raise (ValueError "max() arg is an empty sequence")
  | x :: xs' => Ok (max_from x xs')
  end.

(** [sorted(xs, reverse=True)], as a descending insertion sort. *)
Fixpoint insert_desc (x : R) (xs : list R) : list R :=
  match xs with
  | [] => [x]
  | y :: ys => if Rle_dec y x then x :: y :: ys else y :: insert_desc x ys
  end.

Fixpoint sorted_reverse (xs : list R) : list R :=
  match xs with
  | [] => []
  | x :: xs' => insert_desc x (sorted_reverse xs')
  end.

(** [xs[i]] *)
Definition index (xs : list R) (i : nat) : exc R :=
  match nth_error xs i with
  | Some x => Ok x
  | None => Raise (IndexError "list index out of range")
  end.

(** [round(x, 2)]: the nearest multiple of 0.01, ties to the even one. *)
Definition round_half_even (x : R) : Z :=
  let n := Int_part x in
  let f := x - IZR n in
  if Rlt_dec f (1 / 2) then n
  else if Rgt_dec f (1 / 2) then (n + 1)%Z
  else if Z.even n then n else (n + 1)%Z.

Definition round2 (x : R) : R := IZR (round_half_even (x * 100)) / 100.

End Py.

Notation "x <- c ;; k" := (Py.bind c (fun x => k))
  (at level 61, c at next level, right associativity).
Notation "' p <- c ;; k" := (Py.bind c (fun x => let 'p := x in k))
  (at level 61, p pattern, c at next level, right associativity).

(** ** numpy on 1-D arrays *)

Module Np.

Definition ndarray := list R.

Fixpoint sum_products (a b : ndarray) : R :=
  match a, b with
  | x :: a', y :: b' => x * y + sum_products a' b'
  | _, _ => 0
  end.

(** [np.dot(a, b)] for 1-D arrays: the lengths must agree. *)
Definition dot (a b : ndarray) : Py.exc R :=
  if Nat.eqb (length a) (length b) then Py.Ok (sum_products a b)
  else Py.Raise (Py.ValueError "shapes not aligned").

(** [np.linalg.norm(a)]: the Euclidean norm. *)
Definition linalg_norm (a : ndarray) : R := sqrt (sum_products a a).

Fixpoint zip_sub (a b : ndarray) : ndarray :=
  match a, b with
  | x :: a', y :: b' => (x - y) :: zip_sub a' b'
  | _, _ => []
  end.

(** [a - b] with numpy broadcasting: equal lengths, or one side of length 1. *)
Definition sub (a b : ndarray) : Py.exc ndarray :=
  if Nat.eqb (length a) (length b) then Py.Ok (zip_sub a b)
  else match a, b with
       | [x], _ => Py.Ok (map (fun y => x - y) b)
       | _, [y] => Py.Ok (map (fun x => x - y) a)
       | _, _ => Py.Raise (Py.ValueError "operands could not be broadcast together")
       end.

End Np.

(** ** Style heuristic: [detect_cartoon_book_simple] *)

Module StyleClassifier.

(** What [np.array(pil_image)] gives: a 2-D array for single-band modes
    (L, P, 1, ...), a 3-D array of shape (H, W, C) for multi-band modes.
    Pixel values are integers; in a well-formed [Arr3D] every pixel has
    [channels] entries. *)
Inductive img_ndarray : Type :=
| Arr2D (rows : list (list Z))
| Arr3D (channels : nat) (rows : list (list (list Z))).

(** [img_array[:, :, c]] *)
Definition channel (img : img_ndarray) (c : nat) : Py.exc (list (list Z)) :=
  match img with
  | Arr2D _ => Py.Raise (Py.IndexError "too many indices for array")
  | Arr3D channels rows =>
      if Nat.ltb c channels
      then Py.Ok (map (map (fun px => nth c px 0%Z)) rows)
      else Py.Raise (Py.IndexError "index is out of bounds for axis 2")
  end.

(** A float64 that may be NaN. *)
Definition float := option Q.

Definition sumZ (xs : list Z) : Z := fold_right Z.add 0%Z xs.
Definition sumQ (xs : list Q) : Q := fold_right Qplus (0#1)%Q xs.

(** [np.mean(plane)] over all entries; NaN (with a warning only) when the
    plane has no entry. *)
Definition np_mean (plane : list (list Z)) : float :=
  let xs := concat plane in
  match xs with
  | [] => None
  | _ => Some (inject_Z (sumZ xs) / inject_Z (Z.of_nat (length xs)))%Q
  end.

Fixpoint all_numbers (xs : list float) : option (list Q) :=
  match xs with
  | [] => Some []
  | None :: _ => None
  | Some x :: xs' =>
      match all_numbers xs' with
      | Some ys => Some (x :: ys)
      | None => None
      end
  end.

(** [np.var(xs)]: the population variance, the mean of the squared
    deviations from the mean; NaN as soon as one entry is. *)
Definition np_var (xs : list float) : float :=
  match all_numbers xs with
  | None => None
  | Some [] => None
  | Some ys =>
      let n := inject_Z (Z.of_nat (length ys)) in
      let arrmean := (sumQ ys / n)%Q in
      Some (sumQ (map (fun y => (y - arrmean) * (y - arrmean))%Q ys) / n)%Q
  end.

(** [x > c]; false when [x] is NaN. *)
Definition gt (x : float) (c : Q) : bool :=
  match x with
  | None => false
  | Some q => negb (Qle_bool q c)
  end.

Definition color_variance (img_array : img_ndarray) : Py.exc float :=
  r <- channel img_array 0 ;;
  g <- channel img_array 1 ;;
  b <- channel img_array 2 ;;
  let r_mean := np_mean r in
  let g_mean := np_mean g in
  let b_mean := np_mean b in
  Py.Ok (np_var [r_mean; g_mean; b_mean]).

Definition detect_cartoon_book_simple (pil_image : img_ndarray) : Py.exc bool :=
  Py.try_except
    (let img_array := pil_image in
     color_variance <- color_variance img_array ;;
     let is_cartoon := gt color_variance (500#1)%Q in
     Py.Ok is_cartoon)
    (fun e => Py.Ok false).

End StyleClassifier.

(** ** The matching engine: [identify_book_with_rotation_enhanced] *)

Module Engine.

Import StyleClassifier.

(** [best = {"book_id": ..., "score": ..., "rotation": ...}] *)
Record Best : Type := mkBest {
  book_id : option Z;
  score : R;
  rotation : Z
}.

Definition initial_best : Best :=
  {| book_id := None; score := -1.0; rotation := 0%Z |}.

(** Truth value of [best["book_id"]]: [None] and the integer 0 are false. *)
Definition truthy (b : option Z) : bool :=
  match b with
  | None => false
  | Some i => negb (Z.eqb i 0)
  end.

Definition Rgeb (x y : R) : bool := if Rge_dec x y then true else false.

(** The body of the inner loop up to [all_scores.append(score)]: the score
    of one query embedding against one stored embedding. *)
Definition pair_score (is_cartoon : bool) (emb db_emb : Np.ndarray)
  : Py.exc R :=
  if is_cartoon then
    dot <- Np.dot emb db_emb ;;
    let norm := Np.linalg_norm emb * Np.linalg_norm db_emb in
    cosine_sim <- (if Req_dec_T norm 0 then Py.Ok 0.0 else Py.div dot norm) ;;
    diff <- Np.sub emb db_emb ;;
    let euclidean_dist := Np.linalg_norm diff in
    euclidean_sim <- Py.div 1 (1 + euclidean_dist) ;;
    Py.Ok (0.7 * cosine_sim + 0.3 * euclidean_sim)
  else
    dot <- Np.dot emb db_emb ;;
    let norm := Np.linalg_norm emb * Np.linalg_norm db_emb in
    if Req_dec_T norm 0 then Py.Ok 0.0 else Py.div dot norm.

(** One iteration of [for book_id, db_emb in db_items]. *)
Definition scan_item (is_cartoon : bool) (angle : Z) (emb : Np.ndarray)
  (st : Best * list R) (item : Z * Np.ndarray) : Py.exc (Best * list R) :=
  let '(best, all_scores) := st in
  let '(book_id, db_emb) := item in
  score <- pair_score is_cartoon emb db_emb ;;
  let all_scores := all_scores ++ [score] in
  if Rgt_dec score best.(Engine.score)
  then Py.Ok ({| book_id := Some book_id; score := score; rotation := angle |},
              all_scores)
  else Py.Ok (best, all_scores).

Section Collaborators.

(** [pil_img.rotate(angle, expand=True)] and the CLIP feature extractor
    ([_clip_processor] then [_clip_model.get_image_features], flattened). *)
Variable rotate : img_ndarray -> Z -> img_ndarray.
Variable get_image_features : img_ndarray -> Np.ndarray.

(** One iteration of [for angle in (0, 90, 180, 270)]. *)
Definition scan_angle (is_cartoon : bool) (pil_img : img_ndarray)
  (db_items : list (Z * Np.ndarray)) (st : Best * list R) (angle : Z)
  : Py.exc (Best * list R) :=
  let rotated := rotate pil_img angle in
  let emb := get_image_features rotated in
  Py.for_each (scan_item is_cartoon angle emb) db_items st.

Definition angles : list Z := [0; 90; 180; 270]%Z.

Definition scan (is_cartoon : bool) (pil_img : img_ndarray)
  (db_items : list (Z * Np.ndarray)) : Py.exc (Best * list R) :=
  Py.for_each (scan_angle is_cartoon pil_img db_items) angles
    (initial_best, []).

End Collaborators.

(** The three thresholds chosen by the style flag, in the order
    (HIGH_CONFIDENCE_THRESHOLD, LOW_CONFIDENCE_THRESHOLD, MIN_GAP_REQUIRED). *)
Definition thresholds (is_cartoon : bool) : R * R * R :=
  if is_cartoon then (0.75, 0.60, 0.12) else (0.70, 0.55, 0.08).

Inductive result_type : Type :=
| high_confidence
| medium_confidence
| low_confidence_similar
| unknown_book.

(** The block "analyse the score distribution": the result type, and
    [score_gap] when the block binds it. *)
Definition analyse (is_cartoon : bool) (best : Best) (all_scores : list R)
  : Py.exc (result_type * option R) :=
  let '(HIGH_CONFIDENCE_THRESHOLD, LOW_CONFIDENCE_THRESHOLD, MIN_GAP_REQUIRED) :=
    thresholds is_cartoon in
  match all_scores with
  | [] => Py.Ok (unknown_book, None)
  | _ :: _ =>
      max_score <- Py.max all_scores ;;
      second_max <- (if Nat.ltb 1 (length all_scores)
                     then Py.index (Py.sorted_reverse all_scores) 1
                     else Py.Ok 0) ;;
      let score_gap := max_score - second_max in
      let result_type :=
        if truthy best.(book_id)
           && Rgeb best.(score) HIGH_CONFIDENCE_THRESHOLD
           && Rgeb score_gap MIN_GAP_REQUIRED
        then high_confidence
        else if truthy best.(book_id)
                && Rgeb best.(score) LOW_CONFIDENCE_THRESHOLD
                && Rgeb score_gap MIN_GAP_REQUIRED
        then medium_confidence
        else if truthy best.(book_id)
                && Rgeb best.(score) LOW_CONFIDENCE_THRESHOLD
        then low_confidence_similar
        else unknown_book in
      Py.Ok (result_type, Some score_gap)
  end.

(** A row of the [books] table, as [SELECT title, isbn, url] reads it. *)
Record BookRow : Type := mkBookRow {
  row_id : Z;
  row_title : string;
  row_isbn : option string;
  row_url : option string
}.

(** [SELECT ... FROM books WHERE id = %s] followed by [fetchone()]. *)
Definition fetchone (books : list BookRow) (id : option Z) : option BookRow :=
  match id with
  | None => None
  | Some i => find (fun row => Z.eqb row.(row_id) i) books
  end.

(** [s or ""] *)
Definition or_empty (s : option string) : string :=
  match s with
  | Some t => t
  | None => EmptyString
  end.

(** The ["details"] sub-dictionary; [gap_required] is present in the
    uncertain-match result only. *)
Record Details : Type := mkDetails {
  confidence_level : string;
  processing_type : string;
  score_gap : R;
  cartoon_detected : bool;
  gap_required : option R
}.

(** The dictionary the function returns as first component. *)
Inductive result : Type :=
| Empty
| UnknownBook (best_match_score : R) (suggestion : string)
    (action_needed : string) (cartoon_detected : bool)
| UncertainMatch (id : option Z) (title isbn url : string)
    (similarity_score : R) (comparison_method : string)
    (rotation_angle : Z) (warning : string) (details : Details)
| BookMatch (id : option Z) (title isbn url : string)
    (similarity_score : R) (comparison_method : string)
    (rotation_angle : Z) (details : Details).

(** [round(score_gap * 100, 2) if 'score_gap' in locals() else 0] *)
Definition shown_gap (score_gap : option R) : R :=
  match score_gap with
  | Some g => Py.round2 (g * 100)
  | None => 0
  end.

Definition comparison_method_of (is_cartoon : bool) : string :=
  if is_cartoon then "CLIP 旋轉增強 (卡通書模式)" else "CLIP 旋轉增強".

(** The block "return the result". *)
Definition build_result (is_cartoon : bool) (books : list BookRow)
  (best : Best) (result_type : result_type) (score_gap : option R)
  : result * string :=
  let '(_, _, MIN_GAP_REQUIRED) := thresholds is_cartoon in
  match result_type with
  | unknown_book =>
      (UnknownBook (Py.round2 (best.(score) * 100))
         ("這可能是資料庫中沒有的新書" ++
          (if is_cartoon then "（卡通書籍檢測較嚴格）" else ""))%string
         "add_new_book" is_cartoon,
       EmptyString)
  | low_confidence_similar =>
      match fetchone books best.(book_id) with
      | Some row =>
          (UncertainMatch best.(book_id) row.(row_title)
             (or_empty row.(row_isbn)) (or_empty row.(row_url))
             (Py.round2 (best.(score) * 100))
             (comparison_method_of is_cartoon)
             best.(rotation)
             ("識別信心較低，請確認是否為正確書籍" ++
              (if is_cartoon then "（卡通書籍容易混淆）" else ""))%string
             {| confidence_level := "低";
                processing_type := "FastAPI Enhanced";
                score_gap := shown_gap score_gap;
                cartoon_detected := is_cartoon;
                gap_required := Some (Py.round2 (MIN_GAP_REQUIRED * 100)) |},
           EmptyString)
      | None => (Empty, "未找到匹配的書籍"%string)
      end
  | _ =>
      match fetchone books best.(book_id) with
      | Some row =>
          (BookMatch best.(book_id) row.(row_title)
             (or_empty row.(row_isbn)) (or_empty row.(row_url))
             (Py.round2 (best.(score) * 100))
             (comparison_method_of is_cartoon)
             best.(rotation)
             {| confidence_level :=
                  match result_type with
                  | high_confidence => "高"
                  | _ => "中"
                  end;
                processing_type := "FastAPI Enhanced";
                score_gap := shown_gap score_gap;
                cartoon_detected := is_cartoon;
                gap_required := None |},
           EmptyString)
      | None => (Empty, "未找到匹配的書籍"%string)
      end
  end.

(** The whole function. [clip] is the loaded model, if any; [image_file]
    is [None] for an object without [read], and otherwise what decoding
    the bytes read from it gives; [cover_embeddings] and [books] are the
    two tables as the queries read them. *)
Definition identify_book_with_rotation_enhanced
  (clip : option (img_ndarray -> Np.ndarray))
  (rotate : img_ndarray -> Z -> img_ndarray)
  (image_file : option (Py.exc img_ndarray))
  (cover_embeddings : list (Z * Np.ndarray))
  (books : list BookRow) : Py.exc (result * string) :=
  Py.try_except
    (match clip with
     | None => Py.Ok (Empty, "CLIP 模型未正確初始化"%string)
     | Some get_image_features =>
         match image_file with
         | None => Py.Ok (Empty, "無效的檔案物件"%string)
         | Some decoded =>
             pil_img <- decoded ;;
             is_cartoon <- detect_cartoon_book_simple pil_img ;;
             let db_items := cover_embeddings in
             match db_items with
             | [] => Py.Ok (Empty, "資料庫中沒有書籍記錄"%string)
             | _ :: _ =>
                 ' (best, all_scores) <-
                   scan rotate get_image_features is_cartoon pil_img db_items ;;
                 ' (result_type, score_gap) <-
                   analyse is_cartoon best all_scores ;;
                 Py.Ok (build_result is_cartoon books best result_type score_gap)
             end
         end
     end)
    (fun e => Py.Ok (Empty, ("識別過程發生錯誤: " ++ Py.str e)%string)).

End Engine.

(** ** The specification's vocabulary

    Definitions that follow the words of the specification, to be compared
    with the code above. *)

Module Spec.

Inductive Style : Type := Standard | Cartoon.

Definition style_of (is_cartoon : bool) : Style :=
  if is_cartoon then Cartoon else Standard.

(** The threshold table of the confidence classifier. *)
Definition HIGH (st : Style) : R :=
  match st with Standard => 0.70 | Cartoon => 0.75 end.
Definition LOW (st : Style) : R :=
  match st with Standard => 0.55 | Cartoon => 0.60 end.
Definition MIN_GAP (st : Style) : R :=
  match st with Standard => 0.08 | Cartoon => 0.12 end.





(** Descending order, the order of a list sorted with [reverse=True]. *)
Definition desc (a b : R) : Prop := b <= a.

(** [m] is the largest and [s] the second-largest entry of [xs]. *)
Definition top_two (xs : list R) (m s : R) : Prop :=
  exists rest, Permutation xs (m :: s :: rest) /\ s <= m /\
               Forall (fun x => x <= s) rest.

(** Textbook vector operations. *)
Definition dot_product (a b : list R) : R :=
  fold_right Rplus 0 (map (fun p => fst p * snd p) (combine a b)).

Definition euclidean_norm (a : list R) : R :=
  sqrt (fold_right Rplus 0 (map (fun x => x * x) a)).

Definition euclidean_distance (a b : list R) : R :=
  sqrt (fold_right Rplus 0
          (map (fun p => (fst p - snd p) * (fst p - snd p)) (combine a b))).

(** Cosine similarity, defined as 0 when either norm is zero. *)
Definition cosine_similarity (a b : list R) : R :=
  if Req_dec_T (euclidean_norm a) 0 then 0
  else if Req_dec_T (euclidean_norm b) 0 then 0
  else dot_product a b / (euclidean_norm a * euclidean_norm b).

(** The scan sequence: rotations in the order 0, 90, 180, 270, and for each
    rotation the candidates in the order of the store. *)
Definition scan_order (db_items : list (Z * Np.ndarray))
  : list (Z * (Z * Np.ndarray)) :=
  flat_map (fun angle => map (fun item => (angle, item)) db_items)
    [0; 90; 180; 270]%Z.

(** The pair at position [k] of the scan attains the maximum of the scores
    and no earlier pair does. *)
Definition first_maximal (all_scores : list R) (k : nat) (s : R) : Prop :=
  nth_error all_scores k = Some s /\
  Forall (fun x => x <= s) all_scores /\
  (forall j x, (j < k)%nat -> nth_error all_scores j = Some x -> x < s).

(** The running best is the pair at position [k] of the scan. *)
Definition selects (db_items : list (Z * Np.ndarray)) (best : Engine.Best)
  (k : nat) : Prop :=
  exists angle id v,
    nth_error (scan_order db_items) k = Some (angle, (id, v)) /\
    best.(Engine.book_id) = Some id /\ best.(Engine.rotation) = angle.

(** Variance across three numbers, and the mean of one colour channel. *)
Definition variance3 (r g b : Q) : Q :=
  let m := ((r + g + b) / (3#1))%Q in
  (((r - m) * (r - m) + (g - m) * (g - m) + (b - m) * (b - m)) / (3#1))%Q.

Definition channel_mean (rows : list (list (list Z))) (c : nat) : Q :=
  let values := map (fun px => nth c px 0%Z) (concat rows) in
  (inject_Z (fold_right Z.add 0%Z values) /
   inject_Z (Z.of_nat (length values)))%Q.

End Spec.

(** ** The scan as one loop

    The two nested loops of the scan, read as a single loop over
    [Spec.scan_order]. *)

Module Flat.

Section Collaborators.

Variable rotate : StyleClassifier.img_ndarray -> Z -> StyleClassifier.img_ndarray.
Variable get_image_features : StyleClassifier.img_ndarray -> Np.ndarray.
Variable is_cartoon : bool.
Variable pil_img : StyleClassifier.img_ndarray.

(** The score computed for one (rotation, candidate) pair. *)
Definition score_of (p : Z * (Z * Np.ndarray)) : Py.exc R :=
  Engine.pair_score is_cartoon (get_image_features (rotate pil_img (fst p)))
    (snd (snd p)).

Definition scan_pair (st : Engine.Best * list R) (p : Z * (Z * Np.ndarray))
  : Py.exc (Engine.Best * list R) :=
  Engine.scan_item is_cartoon (fst p)
    (get_image_features (rotate pil_img (fst p))) st (snd p).

End Collaborators.

(** The update of the running best by one scored pair. *)
Definition select (best : Engine.Best) (p : Z * (Z * Np.ndarray)) (s : R)
  : Engine.Best :=
  if Rgt_dec s best.(Engine.score)
  then Engine.mkBest (Some (fst (snd p))) s (fst p)
  else best.

(** What the running best records about the pairs [ps] scanned so far,
    whose scores are [ss]. *)
Definition tracks (ps : list (Z * (Z * Np.ndarray))) (ss : list R)
  (best : Engine.Best) : Prop :=
  Forall (fun x => x <= best.(Engine.score)) ss /\
  -1 <= best.(Engine.score) /\
  match best.(Engine.book_id) with
  | None => best = Engine.initial_best
  | Some id =>
      -1 < best.(Engine.score) /\
      exists k v,
        nth_error ps k = Some (best.(Engine.rotation), (id, v)) /\
        nth_error ss k = Some best.(Engine.score) /\
        forall j x, (j < k)%nat -> nth_error ss j = Some x ->
                    x < best.(Engine.score)
  end.

End Flat.

(** ** Statements under test and sample inputs *)

Module Claims.

Import StyleClassifier Engine.


(** Whenever several pairs attain the maximal score, the first of them in
    scan order is the one returned. *)
Definition first_of_tied_is_selected
  (rotate : img_ndarray -> Z -> img_ndarray)
  (get_image_features : img_ndarray -> Np.ndarray) (is_cartoon : bool)
  (pil_img : img_ndarray) (db_items : list (Z * Np.ndarray)) : Prop :=
  forall best all_scores k k' s,
    scan rotate get_image_features is_cartoon pil_img db_items
    = Py.Ok (best, all_scores) ->
    Spec.first_maximal all_scores k s ->
    k' <> k -> nth_error all_scores k' = Some s ->
    Spec.selects db_items best k.



End Claims.

Module Fixtures.

Import StyleClassifier.

(** A one-pixel black RGB image; every rotation of it is the image itself. *)
Definition black_pixel : img_ndarray := Arr3D 3 [[[0; 0; 0]%Z]].
Definition same_image (img : img_ndarray) (angle : Z) : img_ndarray := img.

(** A feature extractor that maps every image to the first unit vector. *)
Definition unit_features (img : img_ndarray) : Np.ndarray := [1; 0].

(** Stores: two records equal to the query, one record opposite to it, one
    orthogonal to it, one equal to it. *)
Definition db_tie : list (Z * Np.ndarray) := [(1%Z, [1; 0]); (2%Z, [1; 0])].
Definition db_opposite : list (Z * Np.ndarray) := [(1%Z, [-1; 0])].
Definition db_orthogonal : list (Z * Np.ndarray) := [(1%Z, [0; 1])].
Definition db_same : list (Z * Np.ndarray) := [(1%Z, [1; 0])].

End Fixtures.

(** ** Readings of results *)

Module Observations.

Import Engine.

(** The result types ordered by confidence. *)
Definition confidence_rank (t : result_type) : nat :=
  match t with
  | unknown_book => 0
  | low_confidence_similar => 1
  | medium_confidence => 2
  | high_confidence => 3
  end.

(** The identifier, title and rotation a result names, when it names a
    book. *)
Definition matched (r : result) : option (option Z * string * Z) :=
  match r with
  | UncertainMatch id title _ _ _ _ rotation_angle _ _ =>
      Some (id, title, rotation_angle)
  | BookMatch id title _ _ _ _ rotation_angle _ =>
      Some (id, title, rotation_angle)
  | _ => None
  end.

End Observations.

Module MoreFixtures.

(** A store whose only record has three components, while the sample
    feature extractor produces two. *)
Definition db_other_model : list (Z * Np.ndarray) := [(1%Z, [1; 0; 0])].

End MoreFixtures.

(** ** Text helpers of the API layer *)

Module Text.

Import Ascii.

(** ["," in s] *)
Fixpoint contains (c : Ascii.ascii) (s : string) : bool :=
  match s with
  | EmptyString => false
  | String d s' => if Ascii.eqb d c then true else contains c s'
  end.

(** [s.split(c, 1)] for a string that contains [c]: the text before the
    first [c] and the text after it. *)
Fixpoint split_once (c : Ascii.ascii) (s : string) : string * string :=
  match s with
  | EmptyString => (EmptyString, EmptyString)
  | String d s' =>
      if Ascii.eqb d c then (EmptyString, s')
      else let '(before, after) := split_once c s' in (String d before, after)
  end.

(** The base64 text of an image string, as [api_identify_book] and
    [save_book_with_rotation_enhanced] extract it: a [data:] URL loses
    everything up to its first comma, any other string is taken whole. *)
Definition b64data (image_str : string) : string :=
  if String.prefix "data:" image_str && contains ","%char image_str
  then snd (split_once ","%char image_str)
  else image_str.

Section SafeTitle.

(** A Python string is a sequence of code points; [dot] is the full stop. *)
Variable char : Type.
Variable dot : char.

(** [title[:10] + "..." if len(title) > 10 else title] in [api_get_image]. *)
Definition safe_title (title : list char) : list char :=
  if Nat.ltb 10 (length title)
  then firstn 10 title ++ [dot; dot; dot]
  else title.

End SafeTitle.

End Text.

(** ** Values sent to the client: [convert_numpy_types] *)

Module Json.

(** Python's own scalars. *)
Inductive scalar : Type :=
| PyNone
| PyBool (b : bool)
| PyInt (z : Z)
| PyFloat (x : R)
| PyStr (s : string).

(** numpy scalars: [np.integer], [np.floating], [np.bool_]. *)
Inductive npscalar : Type :=
| NpInteger (z : Z)
| NpFloating (x : R)
| NpBool (b : bool).

(** The two types below are nested through lists; their induction
    principles are proved with the properties. *)
Local Unset Elimination Schemes.

(** The content of an [np.ndarray]: one item (a 0-d array) or the sequence
    of its sub-arrays along the first axis. *)
Inductive ndcontent : Type :=
| NdItem (s : npscalar)
| NdRow (rows : list ndcontent).

(** The objects the conversion distinguishes. [WithItem] is any other
    object with an [item] attribute (a torch tensor, say): [item] is what
    [obj.item()] returns, [None] when it raises, and [text] is [str(obj)].
    [Plain] is an object without [item] attribute, a Python scalar.
    Dictionary keys are strings. *)
Inductive pyobj : Type :=
| Numpy (s : npscalar)
| NdArray (a : ndcontent)
| Dict (items : list (string * pyobj))
| List (l : list pyobj)
| Tuple (l : list pyobj)
| WithItem (item : option scalar) (text : string)
| Plain (s : scalar).

Local Set Elimination Schemes.

(** [int(obj)], [float(obj)], [bool(obj)] *)
Definition native_of (s : npscalar) : scalar :=
  match s with
  | NpInteger z => PyInt z
  | NpFloating x => PyFloat x
  | NpBool b => PyBool b
  end.

(** [obj.tolist()] *)
Fixpoint tolist (a : ndcontent) : pyobj :=
  match a with
  | NdItem s => Plain (native_of s)
  | NdRow rows => List (map tolist rows)
  end.

Fixpoint convert_numpy_types (obj : pyobj) : pyobj :=
  match obj with
  | Numpy (NpInteger z) => Plain (PyInt z)
  | Numpy (NpFloating x) => Plain (PyFloat x)
  | Numpy (NpBool b) => Plain (PyBool b)
  | NdArray a => tolist a
  | Dict items =>
      Dict (map (fun kv => match kv with
                           | (k, v) => (k, convert_numpy_types v)
                           end) items)
  | List l => List (map convert_numpy_types l)
  | Tuple l => List (map convert_numpy_types l)
  | WithItem item text =>
      match item with
      | Some v => Plain v
      | None => Plain (PyStr text)
      end
  | Plain s => Plain s
  end.

(** Only Python scalars, lists and dictionaries, at every depth. *)
Fixpoint json_like (obj : pyobj) : bool :=
  match obj with
  | Plain _ => true
  | List l => forallb json_like l
  | Dict items => forallb (fun kv => json_like (snd kv)) items
  | _ => false
  end.

End Json.

(** ** The identification endpoints *)

Module Api.

Import Json.

Definition str_ (s : string) : pyobj := Plain (PyStr s).
Definition bool_ (b : bool) : pyobj := Plain (PyBool b).
Definition float_ (x : R) : pyobj := Plain (PyFloat x).
Definition int_ (z : Z) : pyobj := Plain (PyInt z).

(** [best["book_id"]] as a value: an integer, or [None]. *)
Definition id_ (id : option Z) : pyobj :=
  match id with
  | Some i => int_ i
  | None => Plain PyNone
  end.

(** The ["details"] dictionary of a match. *)
Definition encode_details (d : Engine.Details) : pyobj :=
  Dict ([("confidence_level"%string, str_ d.(Engine.confidence_level));
         ("processing_type"%string, str_ d.(Engine.processing_type));
         ("score_gap"%string, float_ d.(Engine.score_gap));
         ("cartoon_detected"%string, bool_ d.(Engine.cartoon_detected))]
        ++ match d.(Engine.gap_required) with
           | Some g => [("gap_required"%string, float_ g)]
           | None => []
           end).

(** The dictionary literals of [identify_book_with_rotation_enhanced],
    key by key. *)
Definition encode (r : Engine.result) : pyobj :=
  match r with
  | Engine.Empty => Dict []
  | Engine.UnknownBook best_match_score suggestion action_needed
      cartoon_detected =>
      Dict [("unknown_book"%string, bool_ true);
            ("best_match_score"%string, float_ best_match_score);
            ("suggestion"%string, str_ suggestion);
            ("action_needed"%string, str_ action_needed);
            ("cartoon_detected"%string, bool_ cartoon_detected)]
  | Engine.UncertainMatch id title isbn url similarity_score
      comparison_method rotation_angle warning details =>
      Dict [("uncertain_match"%string, bool_ true);
            ("id"%string, id_ id);
            ("title"%string, str_ title);
            ("isbn"%string, str_ isbn);
            ("url"%string, str_ url);
            ("similarity_score"%string, float_ similarity_score);
            ("comparison_method"%string, str_ comparison_method);
            ("rotation_angle"%string, int_ rotation_angle);
            ("warning"%string, str_ warning);
            ("details"%string, encode_details details)]
  | Engine.BookMatch id title isbn url similarity_score comparison_method
      rotation_angle details =>
      Dict [("id"%string, id_ id);
            ("title"%string, str_ title);
            ("isbn"%string, str_ isbn);
            ("url"%string, str_ url);
            ("similarity_score"%string, float_ similarity_score);
            ("comparison_method"%string, str_ comparison_method);
            ("rotation_angle"%string, int_ rotation_angle);
            ("details"%string, encode_details details)]
  end.

(** Truth value of a dictionary: false when it is empty. *)
Definition nonempty (r : Engine.result) : bool :=
  match r with
  | Engine.Empty => false
  | _ => true
  end.

Definition failure (message : string) : pyobj :=
  Dict [("success"%string, bool_ false); ("message"%string, str_ message)].

(** [error or "..."] *)
Definition or_default (error default : string) : string :=
  match error with
  | EmptyString => default
  | _ => error
  end.

(** The common end of both endpoints: the reply built from what the
    identification returned. *)
Definition reply_of (answer : Engine.result * string) : pyobj :=
  let '(result, error) := answer in
  if nonempty result then
    let clean_result := convert_numpy_types (encode result) in
    Dict [("success"%string, bool_ true);
          ("book"%string, clean_result);
          ("message"%string, str_ "識別成功")]
  else failure (or_default error "未找到匹配的書籍").

Section Endpoints.

(** The application state the endpoints read: the loaded model, the image
    rotation, the decoder of image bytes ([Image.open] and [convert]), the
    two tables, the base64 decoder, and the text of a size in megabytes
    with one decimal. *)
Variable clip : option (StyleClassifier.img_ndarray -> Np.ndarray).
Variable rotate : StyleClassifier.img_ndarray -> Z -> StyleClassifier.img_ndarray.
Variable decode : list Byte.byte -> Py.exc StyleClassifier.img_ndarray.
Variable cover_embeddings : list (Z * Np.ndarray).
Variable books : list Engine.BookRow.
Variable b64decode : string -> Py.exc (list Byte.byte).
Variable megabytes : nat -> string.

Definition identify (content : list Byte.byte)
  : Py.exc (Engine.result * string) :=
  Engine.identify_book_with_rotation_enhanced clip rotate
    (Some (decode content)) cover_embeddings books.

(** [f"{image.content_type}"] *)
Definition show_content_type (content_type : option string) : string :=
  match content_type with
  | Some t => t
  | None => "None"
  end.

(** [not image.content_type or not image.content_type.startswith('image/')] *)
Definition not_an_image (content_type : option string) : bool :=
  match content_type with
  | None => true
  | Some EmptyString => true
  | Some t => negb (String.prefix "image/" t)
  end.

Definition api_identify_book_file (content_type : option string)
  (content : list Byte.byte) : Py.exc pyobj :=
  Py.try_except
    (if not_an_image content_type then
       Py.Ok (failure ("不支援的檔案類型: " ++ show_content_type content_type))
     else
       let file_size := length content in
       if Z.ltb (10 * 1024 * 1024) (Z.of_nat file_size) then
         Py.Ok (failure ("檔案過大: " ++ megabytes file_size
                         ++ "MB (限制: 10MB)"))
       else if Nat.eqb file_size 0 then
         Py.Ok (failure "上傳的檔案為空")
       else
         answer <- identify content ;;
         Py.Ok (reply_of answer))
    (fun e => Py.Ok (failure ("FastAPI 檔案處理錯誤: " ++ Py.str e))).

Definition api_identify_book (image : string) : Py.exc pyobj :=
  Py.try_except
    (match image with
     | EmptyString => Py.Ok (failure "圖片資料不能為空")
     | _ =>
         let image_str := image in
         let b64data := Text.b64data image_str in
         match
           Py.try_except
             (image_bytes <- b64decode b64data ;;
              match image_bytes with
              | [] => Py.Raise (Py.ValueError "Base64 解碼後圖片為空")
              | _ => Py.Ok (inl image_bytes)
              end)
             (fun e => Py.Ok (inr (failure ("圖片格式錯誤: " ++ Py.str e))))
         with
         | Py.Ok (inl image_bytes) =>
             answer <- identify image_bytes ;;
             Py.Ok (reply_of answer)
         | Py.Ok (inr early_reply) => Py.Ok early_reply
         | Py.Raise e => Py.Raise e
         end
     end)
    (fun e => Py.Ok (failure ("FastAPI 處理錯誤: " ++ Py.str e))).

End Endpoints.

End Api.

(** ** Deleting a book: [api_delete_book] *)

Module Store.





Section Delete.

(** Whether [os.remove] raises for a path; the exception is only logged. *)
Variable remove_fails : string -> bool.


End Delete.


End Store.

Module ApiFixtures.

Definition decode_black (content : list Byte.byte)
  : Py.exc StyleClassifier.img_ndarray :=
  Py.Ok Fixtures.black_pixel.

Definition b64_one_byte (text : string) : Py.exc (list Byte.byte) :=
  Py.Ok [Byte.x00].

Definition no_text (n : nat) : string := EmptyString.



End ApiFixtures.

(** * Properties *)

(** ** The similarity scorer *)

Section Scorer.

Import Py Np.

Lemma sum_products_dot_product (a b : ndarray) :
  sum_products a b = Spec.dot_product a b.
Proof.
  revert b; induction a as [|x a IH]; intros [|y b]; simpl; try reflexivity.
  unfold Spec.dot_product in *; simpl. now rewrite IH.
Qed.

Lemma sum_products_squares (a : ndarray) :
  sum_products a a = fold_right Rplus 0 (map (fun x => x * x) a).
Proof.
  induction a as [|x a IH]; simpl; [reflexivity | now rewrite IH].
Qed.


Lemma linalg_norm_euclidean_norm (a : ndarray) :
  linalg_norm a = Spec.euclidean_norm a.
Proof.
  unfold linalg_norm, Spec.euclidean_norm. now rewrite sum_products_squares.
Qed.

Lemma linalg_norm_nonneg (a : ndarray) : 0 <= linalg_norm a.
Proof. apply sqrt_pos. Qed.

Lemma zip_sub_distance (a b : ndarray) :
  linalg_norm (zip_sub a b) = Spec.euclidean_distance a b.
Proof.
  unfold linalg_norm, Spec.euclidean_distance. f_equal.
  revert b; induction a as [|x a IH]; intros [|y b]; simpl; try reflexivity.
  now rewrite IH.
Qed.




(** The standard-profile branch, once the shapes agree. *)
Lemma pair_score_standard (a b : ndarray) :
  length a = length b ->
  Engine.pair_score false a b =
  Ok (if Req_dec_T (linalg_norm a * linalg_norm b) 0 then 0
      else sum_products a b / (linalg_norm a * linalg_norm b)).
Proof.
  intros Hlen. unfold Engine.pair_score, dot. rewrite Hlen, Nat.eqb_refl.
  simpl. destruct (Req_dec_T _ 0) as [H0 | H0].
  - f_equal. lra.
  - unfold div. destruct (Req_dec_T _ 0); [contradiction | reflexivity].
Qed.

Lemma cosine_guard (a b : ndarray) :
  (if Req_dec_T (linalg_norm a * linalg_norm b) 0 then 0
   else sum_products a b / (linalg_norm a * linalg_norm b))
  = Spec.cosine_similarity a b.
Proof.
  unfold Spec.cosine_similarity.
  rewrite <- !linalg_norm_euclidean_norm, <- sum_products_dot_product.
  destruct (Req_dec_T (linalg_norm a * linalg_norm b) 0) as [H0 | H0].
  - apply Rmult_integral in H0.
    destruct (Req_dec_T (linalg_norm a) 0); [reflexivity|].
    destruct (Req_dec_T (linalg_norm b) 0); [reflexivity|]. tauto.
  - destruct (Req_dec_T (linalg_norm a) 0) as [Ha | Ha].
    { rewrite Ha in H0. lra. }
    destruct (Req_dec_T (linalg_norm b) 0) as [Hb | Hb].
    { rewrite Hb in H0. lra. }
    reflexivity.
Qed.

Lemma pair_score_cartoon (a b : ndarray) :
  length a = length b ->
  Engine.pair_score true a b =
  Ok (0.7 * (if Req_dec_T (linalg_norm a * linalg_norm b) 0 then 0
             else sum_products a b / (linalg_norm a * linalg_norm b))
      + 0.3 * (1 / (1 + linalg_norm (zip_sub a b)))).
Proof.
  intros Hlen. unfold Engine.pair_score, dot, sub. rewrite Hlen, Nat.eqb_refl.
  simpl.
  assert (Hd : 1 + linalg_norm (zip_sub a b) <> 0)
    by (pose proof (linalg_norm_nonneg (zip_sub a b)); lra).
  destruct (Req_dec_T (linalg_norm a * linalg_norm b) 0) as [H0 | H0]; simpl.
  - unfold div. destruct (Req_dec_T _ 0); [contradiction|]. simpl.
    do 2 f_equal. lra.
  - unfold div at 1. destruct (Req_dec_T _ 0); [contradiction|]. simpl.
    unfold div. destruct (Req_dec_T _ 0); [contradiction|]. reflexivity.
Qed.





(** C5: under the cartoon profile the score of two embeddings of equal
    dimension is 0.7 * cosine similarity + 0.3 * (1 / (1 + Euclidean
    distance)), the cosine term being 0 when either norm is zero. *)
Theorem cartoon_score_is_fused (a b : ndarray) :
  length a = length b ->
  Engine.pair_score true a b =
  Ok (0.7 * Spec.cosine_similarity a b
      + 0.3 * (1 / (1 + Spec.euclidean_distance a b))).
Proof.
  intros Hlen. rewrite (pair_score_cartoon a b Hlen).
  now rewrite cosine_guard, zip_sub_distance.
Qed.

Lemma cartoon_score_is_fused_witness :
  length [1; 0] = length [0; 1] /\
  Engine.pair_score true [1; 0] [0; 1] =
  Ok (0.7 * Spec.cosine_similarity [1; 0] [0; 1]
      + 0.3 * (1 / (1 + Spec.euclidean_distance [1; 0] [0; 1]))).
Proof.
  split; [reflexivity | apply (cartoon_score_is_fused [1; 0] [0; 1]); reflexivity].
Defined.





End Scorer.

(** ** The style heuristic *)

Section Style.

Import Py StyleClassifier.

Lemma channel_in_range (channels : nat) (rows : list (list (list Z))) (c : nat) :
  (c < channels)%nat ->
  channel (Arr3D channels rows) c = Ok (map (map (fun px => nth c px 0%Z)) rows).
Proof.
  intros Hc. unfold channel.
  destruct (Nat.ltb_spec c channels); [reflexivity | lia].
Qed.

Lemma np_mean_channel (rows : list (list (list Z))) (c : nat) :
  concat rows <> [] ->
  np_mean (map (map (fun px => nth c px 0%Z)) rows)
  = Some (Spec.channel_mean rows c).
Proof.
  intros Hne. unfold np_mean, Spec.channel_mean. rewrite <- concat_map.
  destruct (concat rows) as [|px pxs]; [contradiction | reflexivity].
Qed.

Lemma np_var_three (r g b : Q) :
  exists v,
    np_var (@cons float (Some r) (@cons float (Some g) (@cons float (Some b) nil)))
    = Some v /\
    (v == Spec.variance3 r g b)%Q.
Proof.
  eexists; split; [reflexivity|].
  unfold Spec.variance3, sumQ; simpl. field.
Qed.

Lemma gt_exceeds (v w c : Q) :
  (v == w)%Q -> (gt (Some v) c = true <-> (c < w)%Q).
Proof.
  intros Heq. unfold gt. rewrite negb_true_iff.
  rewrite <- not_true_iff_false, Qle_bool_iff, Heq.
  split; [apply Qnot_le_lt | apply Qlt_not_le].
Qed.

(** C9: the style classifier never raises: it always returns a boolean,
    which is false whenever the colour statistics fail, and which for an
    image array with at least three channels and at least one pixel says
    whether the variance across the three channel means exceeds 500. *)
Theorem detect_cartoon_never_raises (pil_image : img_ndarray) :
  (exists is_cartoon, detect_cartoon_book_simple pil_image = Ok is_cartoon) /\
  (forall e, color_variance pil_image = Raise e ->
             detect_cartoon_book_simple pil_image = Ok false) /\
  (forall channels rows,
      pil_image = Arr3D channels rows -> (3 <= channels)%nat ->
      concat rows <> [] ->
      exists is_cartoon,
        detect_cartoon_book_simple pil_image = Ok is_cartoon /\
        (is_cartoon = true <->
         (500#1 < Spec.variance3 (Spec.channel_mean rows 0)
                    (Spec.channel_mean rows 1)
                    (Spec.channel_mean rows 2))%Q)).
Proof.
  unfold detect_cartoon_book_simple. repeat split.
  - destruct (color_variance pil_image) as [v | e]; simpl; eauto.
  - intros e He. rewrite He. reflexivity.
  - intros channels rows -> Hch Hne. unfold color_variance.
    rewrite !channel_in_range by lia. cbn [bind].
    rewrite !np_mean_channel by assumption.
    destruct (np_var_three (Spec.channel_mean rows 0) (Spec.channel_mean rows 1)
                (Spec.channel_mean rows 2)) as [v [Hv Heq]].
    rewrite Hv. eexists; split; [reflexivity|].
    now apply gt_exceeds.
Qed.

Lemma detect_cartoon_never_raises_witness :
  color_variance (Arr2D [[7%Z]]) = Raise (IndexError "too many indices for array") /\
  detect_cartoon_book_simple (Arr2D [[7%Z]]) = Ok false /\
  exists is_cartoon,
    detect_cartoon_book_simple (Arr3D 3 [[[255; 0; 0]%Z]]) = Ok is_cartoon /\
    is_cartoon = true.
Proof.
  split; [reflexivity|]. split.
  - apply (proj1 (proj2 (detect_cartoon_never_raises (Arr2D [[7%Z]]))) _ eq_refl).
  - destruct (proj2 (proj2 (detect_cartoon_never_raises (Arr3D 3 [[[255; 0; 0]%Z]])))
                3%nat [[[255; 0; 0]%Z]] eq_refl (le_n 3))
      as [b [Hb Hiff]]; [discriminate|].
    exists b; split; [exact Hb|]. apply Hiff. reflexivity.
Defined.

End Style.

(** ** The scan *)

Section Scan.

Import Py.

Variable rotate : StyleClassifier.img_ndarray -> Z -> StyleClassifier.img_ndarray.
Variable get_image_features : StyleClassifier.img_ndarray -> Np.ndarray.
Variable is_cartoon : bool.
Variable pil_img : StyleClassifier.img_ndarray.

Local Notation "'scan_pair'" :=
  (Flat.scan_pair rotate get_image_features is_cartoon pil_img).
Local Notation "'score_of'" :=
  (Flat.score_of rotate get_image_features is_cartoon pil_img).

Lemma for_each_app {S X : Type} (body : S -> X -> exc S) (xs ys : list X) (st : S) :
  for_each body (xs ++ ys) st = bind (for_each body xs st) (for_each body ys).
Proof.
  revert st; induction xs as [|x xs IH]; intros st; simpl; [reflexivity|].
  destruct (body st x); simpl; [apply IH | reflexivity].
Qed.

Lemma for_each_map {S X Y : Type} (body : S -> Y -> exc S) (h : X -> Y)
  (xs : list X) (st : S) :
  for_each body (map h xs) st = for_each (fun st x => body st (h x)) xs st.
Proof.
  revert st; induction xs as [|x xs IH]; intros st; simpl; [reflexivity|].
  destruct (body st (h x)); simpl; [apply IH | reflexivity].
Qed.

Lemma for_each_flat_map {S X Y : Type} (body : S -> Y -> exc S)
  (g : X -> list Y) (xs : list X) (st : S) :
  for_each body (flat_map g xs) st
  = for_each (fun st x => for_each body (g x) st) xs st.
Proof.
  revert st; induction xs as [|x xs IH]; intros st; simpl; [reflexivity|].
  rewrite for_each_app.
  destruct (for_each body (g x) st); simpl; [apply IH | reflexivity].
Qed.

(** The nested loops are the single loop over the scan order. *)
Lemma scan_flat (db_items : list (Z * Np.ndarray)) :
  Engine.scan rotate get_image_features is_cartoon pil_img db_items
  = for_each scan_pair (Spec.scan_order db_items) (Engine.initial_best, []).
Proof.
  unfold Engine.scan, Spec.scan_order, Engine.angles.
  rewrite for_each_flat_map.
  generalize (Engine.initial_best, @nil R).
  generalize [0; 90; 180; 270]%Z.
  induction l as [|angle l IH]; intros st; simpl; [reflexivity|].
  unfold Engine.scan_angle at 1. rewrite for_each_map.
  unfold Flat.scan_pair at 1; simpl.
  destruct (for_each _ db_items st); simpl; [apply IH | reflexivity].
Qed.

(** One step of the loop: the pair is scored, the score appended, and the
    running best replaced exactly when the score is strictly greater. *)
Lemma scan_pair_step best acc p st' :
  scan_pair (best, acc) p = Ok st' ->
  exists s, score_of p = Ok s /\ st' = (Flat.select best p s, acc ++ [s]).
Proof.
  destruct p as [angle [id v]]. unfold Flat.scan_pair, Flat.score_of; simpl.
  destruct (Engine.pair_score _ _ _) as [s | e]; simpl; [|discriminate].
  intros H. exists s; split; [reflexivity|].
  unfold Flat.select; simpl.
  destruct (Rgt_dec s (Engine.score best)); now inversion H.
Qed.

(** The whole loop, as a fold of [select] over the scored pairs. *)
Lemma scan_loop ps : forall best acc best' all_scores,
  for_each scan_pair ps (best, acc) = Ok (best', all_scores) ->
  exists ss,
    Forall2 (fun p s => score_of p = Ok s) ps ss /\
    all_scores = acc ++ ss /\
    best' = fold_left (fun b ps => Flat.select b (fst ps) (snd ps))
              (combine ps ss) best.
Proof.
  induction ps as [|p ps IH]; intros best acc best' all_scores H;
    cbn [for_each] in H.
  - inversion H; subst. exists []. rewrite app_nil_r. repeat split. constructor.
  - destruct (scan_pair (best, acc) p) as [st1 | e] eqn:Hstep; cbn [bind] in H;
      [|discriminate].
    apply scan_pair_step in Hstep. destruct Hstep as [s [Hs ->]].
    apply IH in H. destruct H as [ss [Hall [-> ->]]].
    exists (s :: ss). split; [constructor; assumption|].
    split; [now rewrite <- app_assoc | reflexivity].
Qed.

Lemma tracks_initial : Flat.tracks [] [] Engine.initial_best.
Proof.
  unfold Flat.tracks; simpl. repeat split; [constructor | lra].
Qed.

Lemma tracks_step ps ss best p s :
  length ps = length ss ->
  Flat.tracks ps ss best ->
  Flat.tracks (ps ++ [p]) (ss ++ [s]) (Flat.select best p s).
Proof.
  intros Hlen (Hall & Hlow & Hbest). unfold Flat.select.
  destruct (Rgt_dec s (Engine.score best)) as [Hgt | Hle].
  - destruct p as [angle [id v]]. unfold Flat.tracks; simpl.
    split; [|split; [lra|split; [lra|]]].
    + apply Forall_app; split; [|constructor; [lra | constructor]].
      eapply Forall_impl; [|exact Hall]. simpl; intros; lra.
    + exists (length ps), v. repeat split.
      * rewrite nth_error_app2, Nat.sub_diag by lia. reflexivity.
      * rewrite Hlen, nth_error_app2, Nat.sub_diag by lia. reflexivity.
      * intros j x Hj Hx. rewrite nth_error_app1 in Hx by lia.
        apply nth_error_In in Hx. rewrite Forall_forall in Hall.
        specialize (Hall x Hx). lra.
  - unfold Flat.tracks. split; [|split; [assumption|]].
    + apply Forall_app; split; [assumption | constructor; [lra | constructor]].
    + destruct (Engine.book_id best) as [id|]; [|assumption].
      destruct Hbest as (Hgt & k & v & Hp & Hs & Hfirst).
      split; [assumption|]. exists k, v.
      assert (Hk : (k < length ss)%nat)
        by (apply nth_error_Some; rewrite Hs; discriminate).
      repeat split.
      * rewrite nth_error_app1 by lia. assumption.
      * rewrite nth_error_app1 by lia. assumption.
      * intros j x Hj Hx. rewrite nth_error_app1 in Hx by lia. eauto.
Qed.

Lemma tracks_fold ps1 : forall ss1 ps0 ss0 best,
  length ps0 = length ss0 ->
  length ps1 = length ss1 ->
  Flat.tracks ps0 ss0 best ->
  Flat.tracks (ps0 ++ ps1) (ss0 ++ ss1)
    (fold_left (fun b ps => Flat.select b (fst ps) (snd ps))
       (combine ps1 ss1) best).
Proof.
  induction ps1 as [|p ps1 IH]; intros [|s ss1] ps0 ss0 best H0 H1 Ht;
    try discriminate; simpl.
  - now rewrite !app_nil_r.
  - replace (ps0 ++ p :: ps1) with ((ps0 ++ [p]) ++ ps1)
      by (now rewrite <- app_assoc).
    replace (ss0 ++ s :: ss1) with ((ss0 ++ [s]) ++ ss1)
      by (now rewrite <- app_assoc).
    apply IH.
    + rewrite !length_app; simpl; lia.
    + simpl in H1; lia.
    + now apply tracks_step.
Qed.

(** The invariant at the end of the scan. *)
Lemma scan_tracks db_items best all_scores :
  Engine.scan rotate get_image_features is_cartoon pil_img db_items
  = Ok (best, all_scores) ->
  Forall2 (fun p s => score_of p = Ok s) (Spec.scan_order db_items) all_scores /\
  Flat.tracks (Spec.scan_order db_items) all_scores best.
Proof.
  rewrite scan_flat. intros H. apply scan_loop in H.
  destruct H as [ss [Hall [-> ->]]]. simpl. split; [assumption|].
  apply (tracks_fold (Spec.scan_order db_items) ss [] [] Engine.initial_best).
  - reflexivity.
  - eapply Forall2_length; eassumption.
  - apply tracks_initial.
Qed.

Lemma scan_order_length (db_items : list (Z * Np.ndarray)) :
  length (Spec.scan_order db_items) = (4 * length db_items)%nat.
Proof.
  unfold Spec.scan_order; simpl. rewrite !length_app, !length_map; simpl. lia.
Qed.

Lemma scan_scores_length db_items best all_scores :
  Engine.scan rotate get_image_features is_cartoon pil_img db_items
  = Ok (best, all_scores) ->
  length all_scores = (4 * length db_items)%nat.
Proof.
  intros H. apply scan_tracks in H. destruct H as [Hall _].
  apply Forall2_length in Hall. rewrite <- Hall. apply scan_order_length.
Qed.

(** The converse of [scan_loop]: the scan succeeds when every pair can be
    scored. *)
Lemma scan_loop_scored ps : forall ss best acc,
  Forall2 (fun p s => score_of p = Ok s) ps ss ->
  for_each scan_pair ps (best, acc)
  = Ok (fold_left (fun b ps => Flat.select b (fst ps) (snd ps))
          (combine ps ss) best, acc ++ ss).
Proof.
  induction ps as [|p ps IH]; intros ss best acc Hall; inversion Hall; subst;
    cbn [for_each combine fold_left].
  - now rewrite app_nil_r.
  - destruct p as [angle [id v]].
    unfold Flat.scan_pair at 1, Engine.scan_item. cbn [fst snd].
    unfold Flat.score_of in H1; cbn [fst snd] in H1. rewrite H1. cbn [bind].
    unfold Flat.select at 2; cbn [fst snd].
    destruct (Rgt_dec y (Engine.score best)); cbn [bind];
      rewrite (IH l' _ _ H3), <- app_assoc; reflexivity.
Qed.

Lemma scan_scored db_items ss :
  Forall2 (fun p s => score_of p = Ok s) (Spec.scan_order db_items) ss ->
  Engine.scan rotate get_image_features is_cartoon pil_img db_items
  = Ok (fold_left (fun b ps => Flat.select b (fst ps) (snd ps))
          (combine (Spec.scan_order db_items) ss) Engine.initial_best, ss).
Proof.
  intros Hall. rewrite scan_flat. apply (scan_loop_scored _ _ _ [] Hall).
Qed.

(** The running best changes only on a strictly greater score. *)
Lemma scan_item_strict angle emb best acc item best' acc' :
  Engine.scan_item is_cartoon angle emb (best, acc) item = Ok (best', acc') ->
  best' <> best ->
  Engine.score best < Engine.score best' /\
  best' = Engine.mkBest (Some (fst item)) (Engine.score best') angle.
Proof.
  destruct item as [id v]. unfold Engine.scan_item.
  destruct (Engine.pair_score _ _ _) as [s | e]; cbn [bind]; [|discriminate].
  destruct (Rgt_dec s (Engine.score best)) as [Hgt | Hle]; intros H Hne;
    inversion H; subst.
  - simpl. split; [lra | reflexivity].
  - contradiction.
Qed.

(** Where the scan arrives when some score exceeds the initial -1.0. *)
Lemma tracks_first_maximal ps ss best k s :
  Flat.tracks ps ss best ->
  Spec.first_maximal ss k s ->
  -1.0 < s ->
  Engine.score best = s /\
  exists id v,
    nth_error ps k = Some (Engine.rotation best, (id, v)) /\
    Engine.book_id best = Some id.
Proof.
  intros (Hall & Hlow & Hbest) (Hk & Hmax & Hfirst) Hs.
  assert (Hin : In s ss) by (eapply nth_error_In; eassumption).
  rewrite Forall_forall in Hall, Hmax.
  pose proof (Hall s Hin) as Hle.
  destruct (Engine.book_id best) as [id|] eqn:Hid.
  - destruct Hbest as (Hgt & k0 & v & Hp & Hs0 & Hfirst0).
    pose proof (Hmax _ (nth_error_In _ _ Hs0)) as Hge.
    assert (Heq : Engine.score best = s) by lra.
    split; [assumption|].
    assert (k0 = k).
    { destruct (Nat.lt_trichotomy k0 k) as [Hlt | [Heqk | Hlt]];
        [|assumption|].
      - specialize (Hfirst k0 _ Hlt Hs0). lra.
      - specialize (Hfirst0 k _ Hlt Hk). lra. }
    subst k0. eauto.
  - rewrite Hbest in Hle. simpl in Hle. lra.
Qed.

End Scan.

(** ** Sample runs *)

Section Samples.

Import Py Np Fixtures.

Lemma norm_unit : linalg_norm [1; 0] = 1.
Proof.
  unfold linalg_norm; simpl.
  replace (1 * 1 + (0 * 0 + 0)) with 1 by ring. apply sqrt_1.
Qed.

Lemma norm_opposite : linalg_norm [-1; 0] = 1.
Proof.
  unfold linalg_norm; simpl.
  replace (-1 * -1 + (0 * 0 + 0)) with 1 by ring. apply sqrt_1.
Qed.


Lemma score_same : Engine.pair_score false [1; 0] [1; 0] = Ok 1.
Proof.
  rewrite pair_score_standard by reflexivity. rewrite norm_unit.
  destruct (Req_dec_T (1 * 1) 0); [lra|]. f_equal. simpl. field.
Qed.

Lemma score_opposite : Engine.pair_score false [1; 0] [-1; 0] = Ok (-1).
Proof.
  rewrite pair_score_standard by reflexivity.
  rewrite norm_unit, norm_opposite.
  destruct (Req_dec_T (1 * 1) 0); [lra|]. f_equal. simpl. field.
Qed.


(** Evaluates the running best of a scan whose scores are numerals. *)
Ltac run_select :=
  cbv [Spec.scan_order flat_map map app combine fold_left fst snd
       db_tie db_opposite db_orthogonal db_same];
  unfold Flat.select; simpl;
  repeat (match goal with
          | |- context [Rgt_dec ?x ?y] =>
              lazymatch y with
              | context [Rgt_dec _ _] => fail
              | _ => idtac
              end;
              destruct (Rgt_dec x y); simpl; try lra
          end);
  try reflexivity.

Lemma scan_db_tie :
  Engine.scan same_image unit_features false black_pixel db_tie
  = Ok (Engine.mkBest (Some 1%Z) 1 0%Z, [1; 1; 1; 1; 1; 1; 1; 1]).
Proof.
  rewrite (scan_scored _ _ _ _ _ [1; 1; 1; 1; 1; 1; 1; 1])
    by (repeat constructor; apply score_same).
  f_equal. f_equal. run_select.
Qed.

Lemma scan_db_opposite :
  Engine.scan same_image unit_features false black_pixel db_opposite
  = Ok (Engine.initial_best, [-1; -1; -1; -1]).
Proof.
  rewrite (scan_scored _ _ _ _ _ [-1; -1; -1; -1])
    by (repeat constructor; apply score_opposite).
  f_equal. f_equal. run_select.
Qed.


Lemma scan_db_same :
  Engine.scan same_image unit_features false black_pixel db_same
  = Ok (Engine.mkBest (Some 1%Z) 1 0%Z, [1; 1; 1; 1]).
Proof.
  rewrite (scan_scored _ _ _ _ _ [1; 1; 1; 1])
    by (repeat constructor; apply score_same).
  f_equal. f_equal. run_select.
Qed.

End Samples.

(** ** The match selector *)

Section Selector.

Import Py Fixtures.


(** C4 (amended): the running best changes only on a strictly greater
    score, so when the maximal score, attained by one pair or by several,
    is greater than the initial -1.0, the identifier and rotation returned
    are those of the first pair in scan order that attains it. *)
Theorem first_maximal_pair_is_selected rotate get_image_features is_cartoon
  pil_img db_items best all_scores k s :
  Engine.scan rotate get_image_features is_cartoon pil_img db_items
  = Ok (best, all_scores) ->
  Spec.first_maximal all_scores k s ->
  -1.0 < s ->
  Spec.selects db_items best k /\ Engine.score best = s /\
  forall angle emb b acc item b' acc',
    Engine.scan_item is_cartoon angle emb (b, acc) item = Ok (b', acc') ->
    b' <> b -> Engine.score b < Engine.score b'.
Proof.
  intros Hscan Hfirst Hs.
  apply scan_tracks in Hscan. destruct Hscan as [_ Htracks].
  destruct (tracks_first_maximal _ _ _ _ _ Htracks Hfirst Hs)
    as (Hscore & id & v & Hp & Hid).
  split; [|split; [assumption|]].
  - exists (Engine.rotation best), id, v. auto.
  - intros angle emb b acc item b' acc' Hitem Hne.
    eapply scan_item_strict; eassumption.
Qed.

Lemma first_maximal_pair_is_selected_witness :
  Spec.selects db_tie (Engine.mkBest (Some 1%Z) 1 0%Z) 0 /\
  Engine.score (Engine.mkBest (Some 1%Z) 1 0%Z) = 1.
Proof.
  assert (Hfirst : Spec.first_maximal [1; 1; 1; 1; 1; 1; 1; 1] 0 1).
  { split; [reflexivity|]. split; [repeat constructor; lra|].
    intros j x Hj; lia. }
  assert (Hs : -1.0 < 1) by lra.
  destruct (first_maximal_pair_is_selected same_image unit_features false
              black_pixel db_tie _ _ 0%nat 1 scan_db_tie Hfirst Hs)
    as (Hsel & Hscore & _).
  split; assumption.
Defined.

(** The statement of C4 without the condition on -1.0 fails: four pairs tie
    at the maximal score -1.0 and no identifier is returned. *)
Lemma first_of_tied_not_selected_at_sentinel :
  ~ Claims.first_of_tied_is_selected same_image unit_features false
      black_pixel db_opposite.
Proof.
  intros Hclaim.
  assert (Hfirst : Spec.first_maximal [-1; -1; -1; -1] 0 (-1)).
  { split; [reflexivity|]. split; [repeat constructor; lra|].
    intros j x Hj; lia. }
  destruct (Hclaim _ _ 0%nat 1%nat (-1) scan_db_opposite Hfirst)
    as (angle & id & v & _ & Hid & _); [lia | reflexivity |].
  discriminate Hid.
Qed.




End Selector.

(** ** The score gap *)

Section Gap.

Import Py.

Local Notation "'desc'" := Spec.desc.

Lemma max_from_spec xs : forall cur,
  In (max_from cur xs) (cur :: xs) /\
  Forall (fun x => x <= max_from cur xs) (cur :: xs).
Proof.
  induction xs as [|x xs IH]; intros cur; simpl.
  - split; [now left | repeat constructor; lra].
  - destruct (IH (if Rgt_dec x cur then x else cur)) as [Hin Hall].
    inversion Hall as [|? ? Hhd Htl]; subst.
    destruct (Rgt_dec x cur) as [Hgt | Hle].
    + split.
      * destruct Hin as [<- | Hin]; [right; now left | right; now right].
      * constructor; [lra | constructor; assumption].
    + split.
      * destruct Hin as [<- | Hin]; [now left | right; now right].
      * constructor; [assumption | constructor; [lra | assumption]].
Qed.

Lemma insert_desc_perm x xs : Permutation (insert_desc x xs) (x :: xs).
Proof.
  induction xs as [|y ys IH]; simpl; [reflexivity|].
  destruct (Rle_dec y x); [reflexivity|].
  rewrite IH. apply perm_swap.
Qed.

Lemma sorted_reverse_perm xs : Permutation (sorted_reverse xs) xs.
Proof.
  induction xs as [|x xs IH]; simpl; [reflexivity|].
  rewrite insert_desc_perm. now constructor.
Qed.

Lemma insert_desc_sorted x xs :
  StronglySorted desc xs -> StronglySorted desc (insert_desc x xs).
Proof.
  induction 1 as [|y ys Hs IH Hall]; simpl.
  - repeat constructor.
  - destruct (Rle_dec y x) as [Hle | Hgt].
    + constructor; [constructor; assumption|].
      constructor; [exact Hle|].
      eapply Forall_impl; [|exact Hall]. unfold Spec.desc; intros; lra.
    + constructor; [assumption|].
      rewrite Forall_forall in *. intros z Hz.
      apply (Permutation_in z (insert_desc_perm x ys)) in Hz.
      destruct Hz as [<- | Hz]; [unfold Spec.desc; lra | auto].
Qed.

Lemma sorted_reverse_sorted xs : StronglySorted desc (sorted_reverse xs).
Proof.
  induction xs as [|x xs IH]; simpl; [constructor|].
  now apply insert_desc_sorted.
Qed.

(** The sorted list starts with the two largest entries. *)
Lemma sorted_reverse_top_two xs :
  (2 <= length xs)%nat ->
  exists m s rest,
    sorted_reverse xs = m :: s :: rest /\ Spec.top_two xs m s.
Proof.
  intros Hlen.
  pose proof (sorted_reverse_perm xs) as Hperm.
  pose proof (sorted_reverse_sorted xs) as Hsorted.
  pose proof (Permutation_length Hperm) as Hl.
  destruct (sorted_reverse xs) as [|m [|s rest]]; simpl in Hl; try lia.
  exists m, s, rest. split; [reflexivity|].
  exists rest. split; [now symmetry|].
  inversion Hsorted as [|? ? Htl Hm]; subst.
  inversion Htl as [|? ? _ Hs]; subst.
  inversion Hm; subst. split; assumption.
Qed.

Lemma top_two_max xs m s x :
  Spec.top_two xs m s -> In m xs /\ (In x xs -> x <= m).
Proof.
  intros (rest & Hperm & Hsm & Hrest). split.
  - apply (Permutation_in m (Permutation_sym Hperm)). now left.
  - intros Hx. apply (Permutation_in x Hperm) in Hx.
    destruct Hx as [<- | [<- | Hx]]; [lra | lra |].
    rewrite Forall_forall in Hrest. specialize (Hrest x Hx). lra.
Qed.

(** The two largest entries are determined by the list. *)
Lemma top_two_unique xs m s m' s' :
  Spec.top_two xs m s -> Spec.top_two xs m' s' -> m = m' /\ s = s'.
Proof.
  intros H H'.
  assert (Hm : m = m').
  { destruct (top_two_max xs m s m' H) as [Hin Hle].
    destruct (top_two_max xs m' s' m H') as [Hin' Hle'].
    specialize (Hle Hin'). specialize (Hle' Hin). lra. }
  subst m'. split; [reflexivity|].
  destruct H as (rest & Hperm & Hsm & Hrest).
  destruct H' as (rest' & Hperm' & Hsm' & Hrest').
  assert (Hp : Permutation (s :: rest) (s' :: rest')).
  { apply Permutation_cons_inv with m.
    now rewrite <- Hperm, <- Hperm'. }
  rewrite Forall_forall in Hrest, Hrest'.
  assert (s <= s').
  { assert (Hin : In s (s' :: rest'))
      by (apply (Permutation_in s Hp); now left).
    destruct Hin as [<- | Hin]; [lra | auto]. }
  assert (s' <= s).
  { assert (Hin : In s' (s :: rest))
      by (apply (Permutation_in s' (Permutation_sym Hp)); now left).
    destruct Hin as [<- | Hin]; [lra | auto]. }
  lra.
Qed.

Lemma analyse_nonempty is_cartoon best x xs m s :
  max (x :: xs) = Ok m ->
  (if Nat.ltb 1 (length (x :: xs))
   then index (sorted_reverse (x :: xs)) 1 else Ok 0) = Ok s ->
  Engine.analyse is_cartoon best (x :: xs) =
  let '(HIGH, LOW, MIN_GAP) := Engine.thresholds is_cartoon in
  Ok (if Engine.truthy (Engine.book_id best)
         && Engine.Rgeb (Engine.score best) HIGH
         && Engine.Rgeb (m - s) MIN_GAP
      then Engine.high_confidence
      else if Engine.truthy (Engine.book_id best)
              && Engine.Rgeb (Engine.score best) LOW
              && Engine.Rgeb (m - s) MIN_GAP
      then Engine.medium_confidence
      else if Engine.truthy (Engine.book_id best)
              && Engine.Rgeb (Engine.score best) LOW
      then Engine.low_confidence_similar
      else Engine.unknown_book,
      Some (m - s)).
Proof.
  intros Hmax Hsecond. unfold Engine.analyse.
  destruct (Engine.thresholds is_cartoon) as [[HIGH LOW] MIN_GAP].
  rewrite Hmax. cbn [bind]. rewrite Hsecond. cbn [bind]. reflexivity.
Qed.

Lemma second_max_total x xs :
  exists s,
    (if Nat.ltb 1 (length (x :: xs))
     then index (sorted_reverse (x :: xs)) 1 else Ok 0) = Ok s.
Proof.
  destruct (Nat.ltb_spec 1 (length (x :: xs))) as [Hlt | Hge]; [|eauto].
  pose proof (Permutation_length (sorted_reverse_perm (x :: xs))) as Hl.
  simpl in Hlt.
  destruct (sorted_reverse (x :: xs)) as [|a [|b rest]]; simpl in Hl; try lia.
  eexists; reflexivity.
Qed.

(** With at least two scores the gap is the largest score minus the
    second-largest one. *)
Lemma analyse_two_scores is_cartoon best xs :
  (2 <= length xs)%nat ->
  exists result_type m s,
    Engine.analyse is_cartoon best xs = Ok (result_type, Some (m - s)) /\
    Spec.top_two xs m s.
Proof.
  intros Hlen.
  destruct (sorted_reverse_top_two xs Hlen) as (m & s & rest & Hsorted & Htop).
  destruct xs as [|x xs]; [simpl in Hlen; lia|].
  assert (Hmax : max (x :: xs) = Ok m).
  { unfold max. f_equal.
    destruct (max_from_spec xs x) as [Hin Hall].
    rewrite Forall_forall in Hall.
    destruct (top_two_max _ _ _ (max_from x xs) Htop) as [Hm Hle].
    specialize (Hle Hin). specialize (Hall m Hm). lra. }
  assert (Hsecond : (if Nat.ltb 1 (length (x :: xs))
                     then index (sorted_reverse (x :: xs)) 1 else Ok 0) = Ok s).
  { destruct (Nat.ltb_spec 1 (length (x :: xs))); [|lia].
    rewrite Hsorted. reflexivity. }
  rewrite (analyse_nonempty is_cartoon best x xs m s Hmax Hsecond).
  destruct (Engine.thresholds is_cartoon) as [[HIGH LOW] MIN_GAP].
  eexists _, m, s. split; [reflexivity | assumption].
Qed.

(** C3: for the score list of a scan (4 scores per candidate) the gap is
    the largest score minus the second-largest one when at least two scores
    exist; with fewer than two scores no gap is bound and the gap reported
    is 0; for a non-empty score list the gap is not negative. *)
Theorem gap_of_scanned_scores rotate get_image_features is_cartoon pil_img
  db_items best all_scores :
  Engine.scan rotate get_image_features is_cartoon pil_img db_items
  = Ok (best, all_scores) ->
  ((2 <= length all_scores)%nat ->
   exists result_type m s,
     Engine.analyse is_cartoon best all_scores
     = Ok (result_type, Some (m - s)) /\
     Spec.top_two all_scores m s) /\
  ((length all_scores < 2)%nat ->
   exists result_type,
     Engine.analyse is_cartoon best all_scores = Ok (result_type, None) /\
     Engine.shown_gap None = 0) /\
  (all_scores <> [] ->
   exists result_type g,
     Engine.analyse is_cartoon best all_scores = Ok (result_type, Some g) /\
     0 <= g).
Proof.
  intros Hscan.
  pose proof (scan_scores_length _ _ _ _ _ _ _ Hscan) as Hlen.
  split; [|split].
  - apply analyse_two_scores.
  - intros Hshort. destruct all_scores as [|x xs]; [|simpl in *; lia].
    unfold Engine.analyse.
    destruct (Engine.thresholds is_cartoon) as [[HIGH LOW] MIN_GAP].
    eexists; split; reflexivity.
  - intros Hne.
    assert (Htwo : (2 <= length all_scores)%nat).
    { destruct all_scores; [contradiction | simpl in *; lia]. }
    destruct (analyse_two_scores is_cartoon best all_scores Htwo)
      as (rt & m & s & Hrt & rest & _ & Hsm & _).
    exists rt, (m - s). split; [assumption | lra].
Qed.

Lemma gap_of_scanned_scores_witness :
  exists result_type g,
    Engine.analyse false (Engine.mkBest (Some 1%Z) 1 0%Z) [1; 1; 1; 1]
    = Ok (result_type, Some g) /\ 0 <= g.
Proof.
  destruct (gap_of_scanned_scores _ _ _ _ _ _ _ scan_db_same)
    as (_ & _ & Hgap).
  apply Hgap. discriminate.
Defined.

End Gap.

(** ** The confidence classifier *)

Section Classifier.

Import Py.

Lemma Rgeb_true x y : Engine.Rgeb x y = true <-> x >= y.
Proof.
  unfold Engine.Rgeb. destruct (Rge_dec x y); split; intros;
    try reflexivity; try assumption; try discriminate; contradiction.
Qed.

Lemma Rgeb_false x y : Engine.Rgeb x y = false <-> ~ x >= y.
Proof.
  unfold Engine.Rgeb. destruct (Rge_dec x y); split; intros;
    try reflexivity; try assumption; try discriminate; contradiction.
Qed.

Lemma thresholds_table is_cartoon :
  Engine.thresholds is_cartoon
  = (Spec.HIGH (Spec.style_of is_cartoon), Spec.LOW (Spec.style_of is_cartoon),
     Spec.MIN_GAP (Spec.style_of is_cartoon)).
Proof. destruct is_cartoon; reflexivity. Qed.

(** The analysis of a non-empty score list always succeeds. *)
Lemma analyse_total is_cartoon best x xs :
  exists m s,
    Engine.analyse is_cartoon best (x :: xs) =
    let '(HIGH, LOW, MIN_GAP) := Engine.thresholds is_cartoon in
    Ok (if Engine.truthy (Engine.book_id best)
           && Engine.Rgeb (Engine.score best) HIGH
           && Engine.Rgeb (m - s) MIN_GAP
        then Engine.high_confidence
        else if Engine.truthy (Engine.book_id best)
                && Engine.Rgeb (Engine.score best) LOW
                && Engine.Rgeb (m - s) MIN_GAP
        then Engine.medium_confidence
        else if Engine.truthy (Engine.book_id best)
                && Engine.Rgeb (Engine.score best) LOW
        then Engine.low_confidence_similar
        else Engine.unknown_book,
        Some (m - s)).
Proof.
  destruct (second_max_total x xs) as [s Hs].
  exists (max_from x xs), s. now apply analyse_nonempty.
Qed.



(** A recorded identifier with a score at or above LOW gives one of the
    three result types that look the book up. *)
Lemma analyse_confident is_cartoon best x xs :
  Engine.truthy (Engine.book_id best) = true ->
  Engine.score best >= Spec.LOW (Spec.style_of is_cartoon) ->
  exists result_type score_gap,
    Engine.analyse is_cartoon best (x :: xs) = Ok (result_type, score_gap) /\
    result_type <> Engine.unknown_book.
Proof.
  intros Hid Hlow.
  destruct (analyse_total is_cartoon best x xs) as (m & s & Han).
  rewrite thresholds_table in Han. cbv beta iota zeta in Han.
    rewrite Han.
  set (st := Spec.style_of is_cartoon) in *.
  apply Rgeb_true in Hlow. rewrite Hid, Hlow. cbn [andb].
  eexists _, _. split; [reflexivity|].
  destruct (Engine.Rgeb (Engine.score best) (Spec.HIGH st));
    destruct (Engine.Rgeb (m - s) (Spec.MIN_GAP st)); cbn [andb]; discriminate.
Qed.

End Classifier.

(** ** The whole function *)

Section Identify.

Import Py StyleClassifier Engine Fixtures.

Lemma detect_total pil_img :
  exists is_cartoon, detect_cartoon_book_simple pil_img = Ok is_cartoon.
Proof.
  unfold detect_cartoon_book_simple.
  destruct (color_variance pil_img); simpl; eauto.
Qed.


(** With records in the store the function scans, analyses and builds the
    result. *)
Lemma identify_pipeline get_image_features rotate pil_img cover_embeddings books
  is_cartoon best all_scores result_type score_gap :
  cover_embeddings <> [] ->
  detect_cartoon_book_simple pil_img = Ok is_cartoon ->
  scan rotate get_image_features is_cartoon pil_img cover_embeddings
  = Ok (best, all_scores) ->
  analyse is_cartoon best all_scores = Ok (result_type, score_gap) ->
  identify_book_with_rotation_enhanced (Some get_image_features) rotate
    (Some (Ok pil_img)) cover_embeddings books
  = Ok (build_result is_cartoon books best result_type score_gap).
Proof.
  intros Hne Hstyle Hscan Han.
  unfold identify_book_with_rotation_enhanced. cbn [bind].
  rewrite Hstyle. cbn [bind].
  destruct cover_embeddings as [|item items]; [contradiction|].
  rewrite Hscan. cbn [bind]. rewrite Han. reflexivity.
Qed.






End Identify.

(** ** Sample runs of the whole function *)

Section IdentifySamples.

Import Py StyleClassifier Engine Fixtures.

Lemma black_pixel_standard : detect_cartoon_book_simple black_pixel = Ok false.
Proof. reflexivity. Qed.



End IdentifySamples.

(** * Further properties of the engine *)

(** ** Scores *)

Section MoreScores.

Import Py Np.











End MoreScores.

(** ** The scan as a whole *)

Section MoreScan.

Import Py Fixtures MoreFixtures.

Lemma in_scan_order (db_items : list (Z * Np.ndarray)) angle item :
  In (angle, item) (Spec.scan_order db_items) <->
  In angle Engine.angles /\ In item db_items.
Proof.
  unfold Spec.scan_order, Engine.angles. rewrite in_flat_map. split.
  - intros (a & Ha & Hin). apply in_map_iff in Hin.
    destruct Hin as (it & Heq & Hit). inversion Heq; subst. auto.
  - intros [Ha Hit]. exists angle. split; [assumption|].
    apply in_map_iff. eauto.
Qed.

Lemma pair_score_raise (is_cartoon : bool) (a b : Np.ndarray) :
  length a <> length b ->
  Engine.pair_score is_cartoon a b = Raise (ValueError "shapes not aligned").
Proof.
  intros Hlen. unfold Engine.pair_score, Np.dot.
  destruct (Nat.eqb_spec (length a) (length b)); [contradiction|].
  destruct is_cartoon; reflexivity.
Qed.

Lemma pair_score_total (is_cartoon : bool) (a b : Np.ndarray) :
  length a = length b -> exists s, Engine.pair_score is_cartoon a b = Ok s.
Proof.
  intros Hlen. destruct is_cartoon.
  - rewrite (pair_score_cartoon a b Hlen). eauto.
  - rewrite (pair_score_standard a b Hlen). eauto.
Qed.

Lemma pair_score_raise_inv (is_cartoon : bool) (a b : Np.ndarray) e :
  Engine.pair_score is_cartoon a b = Raise e ->
  e = ValueError "shapes not aligned" /\ length a <> length b.
Proof.
  intros H. destruct (Nat.eq_dec (length a) (length b)) as [Hlen | Hlen].
  - destruct (pair_score_total is_cartoon a b Hlen) as [s Hs]. congruence.
  - rewrite (pair_score_raise is_cartoon a b Hlen) in H. inversion H. auto.
Qed.

Variable rotate : StyleClassifier.img_ndarray -> Z -> StyleClassifier.img_ndarray.
Variable get_image_features : StyleClassifier.img_ndarray -> Np.ndarray.
Variable is_cartoon : bool.
Variable pil_img : StyleClassifier.img_ndarray.

Local Notation "'scan_pair'" :=
  (Flat.scan_pair rotate get_image_features is_cartoon pil_img).
Local Notation "'score_of'" :=
  (Flat.score_of rotate get_image_features is_cartoon pil_img).

Lemma scan_pair_raises st p e :
  score_of p = Raise e -> scan_pair st p = Raise e.
Proof.
  destruct st as [best acc]. destruct p as [angle [id v]].
  unfold Flat.score_of, Flat.scan_pair, Engine.scan_item; cbn [fst snd].
  intros ->. reflexivity.
Qed.

Lemma scan_pair_raise_inv st p e :
  scan_pair st p = Raise e -> score_of p = Raise e.
Proof.
  destruct st as [best acc]. destruct p as [angle [id v]].
  unfold Flat.score_of, Flat.scan_pair, Engine.scan_item; cbn [fst snd].
  destruct (Engine.pair_score _ _ _) as [s | e']; cbn [bind].
  - destruct (Rgt_dec s (Engine.score best)); discriminate.
  - intros H; inversion H; reflexivity.
Qed.

(** One pair of unequal dimensions makes the whole loop raise. *)
Lemma scan_loop_raises ps p :
  In p ps ->
  length (get_image_features (rotate pil_img (fst p))) <> length (snd (snd p)) ->
  forall st, for_each scan_pair ps st = Raise (ValueError "shapes not aligned").
Proof.
  intros Hin Hlen.
  assert (Hp : score_of p = Raise (ValueError "shapes not aligned"))
    by (apply pair_score_raise; exact Hlen).
  induction ps as [|q ps IH]; [contradiction|]. intros st. cbn [for_each].
  destruct (scan_pair st q) as [st' | e] eqn:Hq; cbn [bind].
  - destruct Hin as [-> | Hin]; [|now apply IH].
    rewrite (scan_pair_raises st p _ Hp) in Hq. discriminate.
  - apply scan_pair_raise_inv in Hq. unfold Flat.score_of in Hq.
    apply pair_score_raise_inv in Hq. destruct Hq as [-> _]. reflexivity.
Qed.

Lemma scan_loop_scores ps :
  (forall p, In p ps ->
     length (get_image_features (rotate pil_img (fst p))) = length (snd (snd p))) ->
  exists ss, Forall2 (fun p s => score_of p = Ok s) ps ss.
Proof.
  induction ps as [|p ps IH]; intros Hdim.
  - exists []. constructor.
  - destruct IH as [ss Hss]; [intros q Hq; apply Hdim; now right|].
    destruct (pair_score_total is_cartoon _ _ (Hdim p (or_introl eq_refl)))
      as [s Hs].
    exists (s :: ss). constructor; assumption.
Qed.

End MoreScan.

(** The score list of a scan holds exactly four scores per candidate. *)
Theorem scan_scores_four_per_candidate rotate get_image_features is_cartoon
  pil_img db_items best all_scores :
  Engine.scan rotate get_image_features is_cartoon pil_img db_items
  = Py.Ok (best, all_scores) ->
  length all_scores = (4 * length db_items)%nat.
Proof. apply scan_scores_length. Qed.

Lemma scan_scores_four_per_candidate_witness :
  length [1; 1; 1; 1; 1; 1; 1; 1] = (4 * length Fixtures.db_tie)%nat.
Proof.
  exact (scan_scores_four_per_candidate _ _ _ _ _ _ _ scan_db_tie).
Defined.

(** When every stored vector has the dimension of the query embedding of
    every rotation, the scan completes without raising. *)
Theorem scan_succeeds_on_equal_dimensions rotate get_image_features is_cartoon
  pil_img db_items :
  (forall angle id v,
      In angle Engine.angles -> In (id, v) db_items ->
      length (get_image_features (rotate pil_img angle)) = length v) ->
  exists best all_scores,
    Engine.scan rotate get_image_features is_cartoon pil_img db_items
    = Py.Ok (best, all_scores).
Proof.
  intros Hdim.
  destruct (scan_loop_scores rotate get_image_features is_cartoon pil_img
              (Spec.scan_order db_items)) as [ss Hss].
  - intros [angle [id v]] Hin. apply in_scan_order in Hin.
    destruct Hin as [Ha Hit]. simpl. now apply Hdim with id.
  - rewrite (scan_scored _ _ _ _ _ _ Hss). eauto.
Qed.

Lemma scan_succeeds_on_equal_dimensions_witness :
  exists best all_scores,
    Engine.scan Fixtures.same_image Fixtures.unit_features false
      Fixtures.black_pixel Fixtures.db_same
    = Py.Ok (best, all_scores).
Proof.
  apply scan_succeeds_on_equal_dimensions.
  intros angle id v _ [Heq | []]. inversion Heq; subst. reflexivity.
Defined.

(** One stored vector whose dimension differs from that of a query
    embedding makes the whole identification fail: the function returns the
    empty result with the message of the caught exception, and no partial
    match. *)
Theorem identify_fails_on_dimension_mismatch get_image_features rotate pil_img
  cover_embeddings books angle id v :
  In angle Engine.angles -> In (id, v) cover_embeddings ->
  length (get_image_features (rotate pil_img angle)) <> length v ->
  exists text,
    Engine.identify_book_with_rotation_enhanced (Some get_image_features)
      rotate (Some (Py.Ok pil_img)) cover_embeddings books
    = Py.Ok (Engine.Empty, ("識別過程發生錯誤: " ++ text)%string).
Proof.
  intros Ha Hin Hlen.
  unfold Engine.identify_book_with_rotation_enhanced. cbn [Py.bind].
  destruct (detect_total pil_img) as [is_cartoon ->]. cbn [Py.bind].
  destruct cover_embeddings as [|item items]; [contradiction|].
  rewrite scan_flat.
  rewrite (scan_loop_raises rotate get_image_features is_cartoon pil_img
             _ (angle, (id, v))).
  - exists "shapes not aligned"%string. reflexivity.
  - apply in_scan_order. split; assumption.
  - exact Hlen.
Qed.

Lemma identify_fails_on_dimension_mismatch_witness :
  exists text,
    Engine.identify_book_with_rotation_enhanced (Some Fixtures.unit_features)
      Fixtures.same_image (Some (Py.Ok Fixtures.black_pixel))
      MoreFixtures.db_other_model []
    = Py.Ok (Engine.Empty, ("識別過程發生錯誤: " ++ text)%string).
Proof.
  apply (identify_fails_on_dimension_mismatch Fixtures.unit_features
           Fixtures.same_image Fixtures.black_pixel MoreFixtures.db_other_model
           [] 0%Z 1%Z [1; 0; 0]).
  - left; reflexivity.
  - left; reflexivity.
  - simpl. discriminate.
Defined.

(** ** The classifier *)

Section MoreClassifier.

Import Py Engine.

(** The result type as a function of the two largest scores. *)
Lemma analyse_two_largest is_cartoon best xs m s :
  Spec.top_two xs m s ->
  analyse is_cartoon best xs =
  Ok (if truthy (book_id best)
         && Rgeb (score best) (Spec.HIGH (Spec.style_of is_cartoon))
         && Rgeb (m - s) (Spec.MIN_GAP (Spec.style_of is_cartoon))
      then high_confidence
      else if truthy (book_id best)
              && Rgeb (score best) (Spec.LOW (Spec.style_of is_cartoon))
              && Rgeb (m - s) (Spec.MIN_GAP (Spec.style_of is_cartoon))
      then medium_confidence
      else if truthy (book_id best)
              && Rgeb (score best) (Spec.LOW (Spec.style_of is_cartoon))
      then low_confidence_similar
      else unknown_book,
      Some (m - s)).
Proof.
  intros Htop.
  assert (Hlen : (2 <= length xs)%nat).
  { destruct Htop as (rest & Hperm & _).
    apply Permutation_length in Hperm. simpl in Hperm. lia. }
  destruct (sorted_reverse_top_two xs Hlen) as (m' & s' & rest & Hsorted & Htop').
  destruct (top_two_unique xs m s m' s' Htop Htop') as [<- <-].
  destruct xs as [|x xs]; [simpl in Hlen; lia|].
  assert (Hmax : max (x :: xs) = Ok m).
  { unfold max. f_equal.
    destruct (max_from_spec xs x) as [Hin Hall].
    rewrite Forall_forall in Hall.
    destruct (top_two_max _ _ _ (max_from x xs) Htop) as [Hm Hle].
    specialize (Hle Hin). specialize (Hall m Hm). lra. }
  assert (Hsecond : (if Nat.ltb 1 (length (x :: xs))
                     then index (sorted_reverse (x :: xs)) 1 else Ok 0) = Ok s).
  { destruct (Nat.ltb_spec 1 (length (x :: xs))); [|lia].
    rewrite Hsorted. reflexivity. }
  rewrite (analyse_nonempty is_cartoon best x xs m s Hmax Hsecond).
  rewrite thresholds_table. reflexivity.
Qed.

Lemma exists_top_two xs :
  (2 <= length xs)%nat -> exists m s, Spec.top_two xs m s.
Proof.
  intros Hlen.
  destruct (sorted_reverse_top_two xs Hlen) as (m & s & rest & _ & Htop).
  eauto.
Qed.

(** The cartoon thresholds are the stricter ones: for the same running
    best and the same scores, the result type under the cartoon thresholds
    is never more confident than under the standard ones. *)
Theorem cartoon_thresholds_are_stricter (best : Best) (all_scores : list R) :
  exists cartoon_type standard_type gap,
    analyse true best all_scores = Ok (cartoon_type, gap) /\
    analyse false best all_scores = Ok (standard_type, gap) /\
    (Observations.confidence_rank cartoon_type
     <= Observations.confidence_rank standard_type)%nat.
Proof.
  destruct all_scores as [|x xs].
  - exists unknown_book, unknown_book, None. repeat split. simpl; lia.
  - destruct (analyse_total true best x xs) as (m & s & Hc).
    destruct (analyse_total false best x xs) as (m' & s' & Hs).
    assert (Hm : m' - s' = m - s).
    { destruct (second_max_total x xs) as [s0 Hs0].
      pose proof (analyse_nonempty true best x xs _ _ eq_refl Hs0) as Hc'.
      pose proof (analyse_nonempty false best x xs _ _ eq_refl Hs0) as Hs'.
      rewrite Hc in Hc'. rewrite Hs in Hs'.
      cbv beta iota zeta delta [thresholds] in Hc', Hs'.
      inversion Hc'. inversion Hs'. lra. }
    rewrite Hc, Hs, Hm. cbv beta iota zeta delta [thresholds].
    eexists _, _, _. split; [reflexivity|]. split; [reflexivity|].
    destruct (truthy (book_id best)); cbn [andb];
      [|simpl; lia].
    destruct (Rgeb (score best) 0.75) eqn:H1;
      destruct (Rgeb (score best) 0.60) eqn:H2;
      destruct (Rgeb (score best) 0.70) eqn:H3;
      destruct (Rgeb (score best) 0.55) eqn:H4;
      destruct (Rgeb (m - s) 0.12) eqn:H5;
      destruct (Rgeb (m - s) 0.08) eqn:H6;
      cbn [andb Observations.confidence_rank]; try lia;
      repeat match goal with
             | H : Rgeb _ _ = true |- _ => apply Rgeb_true in H
             | H : Rgeb _ _ = false |- _ => apply Rgeb_false in H
             end; exfalso; lra.
Qed.

(** A tie at the top is never a confirmed match: when two positions of
    the score list hold the maximal score, the gap is 0 and the result type
    is neither high nor medium confidence. *)
Theorem tie_is_never_confirmed is_cartoon best all_scores i j s :
  i <> j ->
  nth_error all_scores i = Some s ->
  nth_error all_scores j = Some s ->
  Forall (fun x => x <= s) all_scores ->
  exists result_type,
    analyse is_cartoon best all_scores = Ok (result_type, Some (s - s)) /\
    (result_type = low_confidence_similar \/ result_type = unknown_book).
Proof.
  intros Hij Hi Hj Hmax.
  destruct (nth_error_split _ _ Hi) as (l1 & l2 & -> & Hl1).
  assert (Hin : In s (l1 ++ l2)).
  { apply in_or_app.
    destruct (Nat.lt_ge_cases j (length l1)) as [Hlt | Hge].
    - left. rewrite nth_error_app1 in Hj by assumption.
      eapply nth_error_In; eassumption.
    - right. rewrite nth_error_app2 in Hj by assumption.
      destruct (j - length l1)%nat as [|k] eqn:Hk; [lia|].
      simpl in Hj. eapply nth_error_In; eassumption. }
  assert (Htop : Spec.top_two (l1 ++ s :: l2) s s).
  { apply in_split in Hin. destruct Hin as (r1 & r2 & Hr).
    exists (r1 ++ r2). split; [|split; [lra|]].
    - rewrite <- Permutation_middle. constructor.
      rewrite Hr. now rewrite <- Permutation_middle.
    - rewrite Forall_forall in *. intros x Hx. apply Hmax.
      apply in_or_app.
      assert (Hx' : In x (l1 ++ l2))
        by (rewrite Hr; apply in_or_app; apply in_app_or in Hx;
            destruct Hx; [left | right; right]; assumption).
      apply in_app_or in Hx'. destruct Hx'; [left | right; right]; assumption. }
  rewrite (analyse_two_largest is_cartoon best _ s s Htop).
  eexists; split; [reflexivity|].
  assert (Hgap : Rgeb (s - s) (Spec.MIN_GAP (Spec.style_of is_cartoon)) = false)
    by (apply Rgeb_false; destruct is_cartoon; simpl; lra).
  rewrite Hgap, !andb_false_r.
  destruct (truthy (book_id best) &&
            Rgeb (score best) (Spec.LOW (Spec.style_of is_cartoon))); auto.
Qed.

Lemma tie_is_never_confirmed_witness :
  exists result_type,
    analyse false (mkBest (Some 1%Z) 1 0%Z) [1; 1; 1; 1]
    = Ok (result_type, Some (1 - 1)) /\
    (result_type = low_confidence_similar \/ result_type = unknown_book).
Proof.
  apply (tie_is_never_confirmed false _ [1; 1; 1; 1] 0%nat 1%nat 1);
    [lia | reflexivity | reflexivity | repeat constructor; lra].
Defined.

(** The classification does not depend on the order of the scores: two
    score lists with the same entries give the same result type and gap. *)
Theorem analyse_order_independent is_cartoon best xs ys :
  Permutation xs ys ->
  analyse is_cartoon best xs = analyse is_cartoon best ys.
Proof.
  intros Hperm.
  destruct (Nat.lt_ge_cases (length xs) 2) as [Hshort | Hlong].
  - destruct xs as [|x [|x' xs]]; [| |simpl in Hshort; lia].
    + apply Permutation_nil in Hperm. now subst.
    + apply Permutation_length_1_inv in Hperm. now subst.
  - destruct (exists_top_two xs Hlong) as (m & s & Htop).
    rewrite (analyse_two_largest is_cartoon best xs m s Htop).
    symmetry. apply analyse_two_largest.
    destruct Htop as (rest & Hp & Hsm & Hrest).
    exists rest. split; [|split; assumption].
    now rewrite <- Hperm.
Qed.

Lemma analyse_order_independent_witness :
  analyse false (mkBest (Some 1%Z) 1 0%Z) [1; 0]
  = analyse false (mkBest (Some 1%Z) 1 0%Z) [0; 1].
Proof.
  apply analyse_order_independent. apply perm_swap.
Defined.

End MoreClassifier.

(** ** The answer of the whole function *)

Section MoreIdentify.

Import Py StyleClassifier Engine Fixtures.

Lemma build_result_cases is_cartoon books best result_type score_gap :
  (exists r, build_result is_cartoon books best result_type score_gap
             = (r, EmptyString) /\ r <> Empty /\
             (Observations.matched r = None -> result_type = unknown_book) /\
             (forall id title angle,
                 Observations.matched r = Some (id, title, angle) ->
                 result_type <> unknown_book /\
                 id = book_id best /\ angle = rotation best /\
                 exists row, fetchone books (book_id best) = Some row /\
                             title = row_title row))
  \/ (build_result is_cartoon books best result_type score_gap
      = (Empty, "未找到匹配的書籍"%string) /\
      result_type <> unknown_book /\
      fetchone books (book_id best) = None).
Proof.
  unfold build_result.
  destruct (thresholds is_cartoon) as [[HIGH LOW] MIN_GAP].
  destruct result_type;
    try (destruct (fetchone books (book_id best)) as [row|] eqn:Hrow;
         [left | right; repeat split; discriminate]);
    try left;
    (eexists; split; [reflexivity|]; split; [discriminate|]; split;
     [simpl; intros; first [discriminate | reflexivity]
     |simpl; intros id title angle Hm; inversion Hm; subst;
      repeat split; try discriminate; eauto]).
Qed.

(** What a non-empty answer implies about the run that produced it. *)
Lemma identify_inversion clip rotate image_file cover_embeddings books r message :
  identify_book_with_rotation_enhanced clip rotate image_file cover_embeddings
    books = Ok (r, message) ->
  r <> Empty ->
  exists get_image_features pil_img is_cartoon best all_scores result_type
         score_gap,
    clip = Some get_image_features /\
    image_file = Some (Ok pil_img) /\
    detect_cartoon_book_simple pil_img = Ok is_cartoon /\
    cover_embeddings <> [] /\
    scan rotate get_image_features is_cartoon pil_img cover_embeddings
    = Ok (best, all_scores) /\
    analyse is_cartoon best all_scores = Ok (result_type, score_gap) /\
    build_result is_cartoon books best result_type score_gap = (r, message).
Proof.
  unfold identify_book_with_rotation_enhanced.
  destruct clip as [get_image_features|]; cbn [bind try_except];
    [|intros H Hr; inversion H; subst; contradiction].
  destruct image_file as [[pil_img | e]|]; cbn [bind try_except];
    try (intros H Hr; inversion H; subst; contradiction).
  destruct (detect_cartoon_book_simple pil_img) as [is_cartoon | e] eqn:Hstyle;
    cbn [bind try_except];
    [|intros H Hr; inversion H; subst; contradiction].
  destruct cover_embeddings as [|item items]; cbn [bind try_except];
    [intros H Hr; inversion H; subst; contradiction|].
  destruct (scan rotate get_image_features is_cartoon pil_img (item :: items))
    as [[best all_scores] | e] eqn:Hscan; cbn [bind try_except];
    [|intros H Hr; inversion H; subst; contradiction].
  destruct (analyse is_cartoon best all_scores) as [[result_type score_gap] | e]
    eqn:Han; cbn [bind try_except];
    [|intros H Hr; inversion H; subst; contradiction].
  intros H Hr. inversion H as [Hbuild].
  exists get_image_features, pil_img, is_cartoon, best, all_scores, result_type,
    score_gap.
  repeat split; try assumption; try reflexivity. discriminate.
Qed.

Lemma identify_answer_exclusive clip rotate image_file cover_embeddings books :
  exists r message,
    identify_book_with_rotation_enhanced clip rotate image_file
      cover_embeddings books = Ok (r, message) /\
    (r = Empty <-> message <> EmptyString).
Proof.
  unfold identify_book_with_rotation_enhanced.
  destruct clip as [get_image_features|]; cbn [bind try_except];
    [|eexists _, _; split; [reflexivity | split; [discriminate | reflexivity]]].
  destruct image_file as [[pil_img | e]|]; cbn [bind try_except];
    try (eexists _, _; split;
         [reflexivity | split; [discriminate | reflexivity]]).
  destruct (detect_cartoon_book_simple pil_img) as [is_cartoon | e];
    cbn [bind try_except];
    [|eexists _, _; split; [reflexivity | split; [discriminate | reflexivity]]].
  destruct cover_embeddings as [|item items]; cbn [bind try_except];
    [eexists _, _; split; [reflexivity | split; [discriminate | reflexivity]]|].
  destruct (scan rotate get_image_features is_cartoon pil_img (item :: items))
    as [[best all_scores] | e]; cbn [bind try_except];
    [|eexists _, _; split; [reflexivity | split; [discriminate | reflexivity]]].
  destruct (analyse is_cartoon best all_scores) as [[result_type score_gap] | e];
    cbn [bind try_except];
    [|eexists _, _; split; [reflexivity | split; [discriminate | reflexivity]]].
  destruct (build_result_cases is_cartoon books best result_type score_gap)
    as [(r & -> & Hne & _) | (-> & _)].
  - exists r, EmptyString. split; [reflexivity|]. split; [contradiction|].
    intros H; now contradiction H.
  - eexists _, _. split; [reflexivity|]. split; [discriminate | reflexivity].
Qed.

(** The function never raises, and its two components exclude each other:
    the result is the empty dictionary exactly when the message is not
    empty. *)
Theorem identify_result_or_message clip rotate image_file cover_embeddings books :
  exists r message,
    identify_book_with_rotation_enhanced clip rotate image_file
      cover_embeddings books = Ok (r, message) /\
    (r = Empty <-> message <> EmptyString).
Proof. apply identify_answer_exclusive. Qed.

Lemma matched_book_in_tables clip rotate image_file cover_embeddings books
  r message id title angle :
  identify_book_with_rotation_enhanced clip rotate image_file cover_embeddings
    books = Ok (r, message) ->
  Observations.matched r = Some (id, title, angle) ->
  message = EmptyString /\
  In angle angles /\
  exists i v row,
    id = Some i /\ In (i, v) cover_embeddings /\
    In row books /\ row_id row = i /\ row_title row = title.
Proof.
  intros Hid Hm.
  assert (Hne : r <> Empty) by (intros ->; discriminate Hm).
  destruct (identify_inversion _ _ _ _ _ _ _ Hid Hne)
    as (gif & img & c & best & all_scores & rt & gap & -> & -> & Hstyle & Hdb
        & Hscan & Han & Hbuild).
  destruct (build_result_cases c books best rt gap)
    as [(r' & Hr' & _ & _ & Hmatch) | (Hr' & _)];
    rewrite Hbuild in Hr'; inversion Hr'; subst; [|discriminate Hm].
  destruct (Hmatch _ _ _ Hm) as (_ & -> & -> & row & Hrow & ->).
  split; [reflexivity|].
  apply scan_tracks in Hscan. destruct Hscan as [_ (_ & _ & Hbest)].
  destruct (book_id best) as [i|] eqn:Hi; [|discriminate Hrow].
  destruct Hbest as (_ & k & v & Hp & _).
  apply nth_error_In, in_scan_order in Hp. destruct Hp as [Hangle Hitem].
  split; [assumption|].
  exists i, v, row. simpl in Hrow. apply find_some in Hrow.
  destruct Hrow as [Hin Heq]. apply Z.eqb_eq in Heq. auto.
Qed.

(** A result that names a book names one of the store: its identifier has
    a record in the embedding store and a row in [books] from which the
    title is taken, its rotation is one of 0, 90, 180, 270, and the message
    is empty. *)
Theorem matched_book_is_registered clip rotate image_file cover_embeddings books
  r message id title angle :
  identify_book_with_rotation_enhanced clip rotate image_file cover_embeddings
    books = Ok (r, message) ->
  Observations.matched r = Some (id, title, angle) ->
  message = EmptyString /\
  In angle angles /\
  exists i v row,
    id = Some i /\ In (i, v) cover_embeddings /\
    In row books /\ row_id row = i /\ row_title row = title.
Proof. apply matched_book_in_tables. Qed.

Lemma matched_book_is_registered_witness :
  exists r message id title angle,
    identify_book_with_rotation_enhanced (Some unit_features) same_image
      (Some (Ok black_pixel)) db_same [mkBookRow 1 "Dune" None None]
    = Ok (r, message) /\
    Observations.matched r = Some (id, title, angle) /\
    message = EmptyString /\ In angle angles.
Proof.
  assert (Hne : db_same <> []) by discriminate.
  assert (Hlow : score (mkBest (Some 1%Z) 1 0%Z) >= Spec.LOW (Spec.style_of false))
    by (simpl; lra).
  destruct (analyse_confident false (mkBest (Some 1%Z) 1 0%Z) 1 [1; 1; 1]
              eq_refl Hlow) as (rt & gap & Han & Hrt).
  pose proof (identify_pipeline unit_features same_image black_pixel db_same
                [mkBookRow 1 "Dune" None None] false _ _ rt gap Hne
                black_pixel_standard scan_db_same Han) as Hid.
  destruct (build_result_cases false [mkBookRow 1 "Dune" None None]
              (mkBest (Some 1%Z) 1 0%Z) rt gap)
    as [(r & Hr & _ & Hnone & _) | (_ & _ & Hmiss)]; [|discriminate Hmiss].
  rewrite Hr in Hid.
  destruct (Observations.matched r) as [[[id title] angle]|] eqn:Hm;
    [|contradiction (Hrt (Hnone eq_refl))].
  destruct (matched_book_is_registered _ _ _ _ _ _ _ _ _ _ Hid Hm)
    as (Hmsg & Hangle & _).
  exists r, EmptyString, id, title, angle. auto.
Defined.

Lemma analyse_not_unknown is_cartoon best all_scores result_type score_gap :
  analyse is_cartoon best all_scores = Ok (result_type, score_gap) ->
  result_type <> unknown_book ->
  truthy (book_id best) = true /\
  score best >= Spec.LOW (Spec.style_of is_cartoon).
Proof.
  intros Han Hrt. destruct all_scores as [|x xs].
  - unfold analyse in Han.
    destruct (thresholds is_cartoon) as [[HIGH LOW] MIN_GAP].
    inversion Han; subst. contradiction.
  - destruct (analyse_total is_cartoon best x xs) as (m & s & Hexp).
    rewrite thresholds_table in Hexp. cbv beta iota zeta in Hexp.
    rewrite Hexp in Han. inversion Han as [[Hrt' Hgap]]. clear Han Hexp Hgap.
    set (st := Spec.style_of is_cartoon) in *.
    destruct (truthy (book_id best)); cbn [andb] in Hrt';
      [|subst; contradiction].
    split; [reflexivity|].
    destruct (Rgeb (score best) (Spec.LOW st)) eqn:Hlow;
      [now apply Rgeb_true|].
    assert (Hhigh : Rgeb (score best) (Spec.HIGH st) = false)
      by (apply Rgeb_false; apply Rgeb_false in Hlow; unfold st in *;
          destruct is_cartoon; simpl in *; lra).
    rewrite Hhigh in Hrt'. cbn [andb] in Hrt'. subst; contradiction.
Qed.

(** A book is named only above the LOW threshold: when the result names a
    book, the best score of the scan that produced it is at least the LOW
    threshold of the detected style (0.60 cartoon, 0.55 standard). *)
Theorem matched_book_meets_low_threshold clip rotate image_file
  cover_embeddings books r message id title angle :
  identify_book_with_rotation_enhanced clip rotate image_file cover_embeddings
    books = Ok (r, message) ->
  Observations.matched r = Some (id, title, angle) ->
  exists get_image_features pil_img is_cartoon best all_scores,
    clip = Some get_image_features /\
    image_file = Some (Ok pil_img) /\
    detect_cartoon_book_simple pil_img = Ok is_cartoon /\
    scan rotate get_image_features is_cartoon pil_img cover_embeddings
    = Ok (best, all_scores) /\
    score best >= Spec.LOW (Spec.style_of is_cartoon).
Proof.
  intros Hid Hm.
  assert (Hne : r <> Empty) by (intros ->; discriminate Hm).
  destruct (identify_inversion _ _ _ _ _ _ _ Hid Hne)
    as (gif & img & c & best & all_scores & rt & gap & -> & -> & Hstyle & Hdb
        & Hscan & Han & Hbuild).
  exists gif, img, c, best, all_scores. repeat split; try assumption.
  destruct (build_result_cases c books best rt gap)
    as [(r' & Hr' & _ & _ & Hmatch) | (Hr' & _)];
    rewrite Hbuild in Hr'; inversion Hr'; subst; [|discriminate Hm].
  destruct (Hmatch _ _ _ Hm) as (Hrt & _).
  now destruct (analyse_not_unknown _ _ _ _ _ Han Hrt).
Qed.

Lemma matched_book_meets_low_threshold_witness :
  exists r message id title angle,
    identify_book_with_rotation_enhanced (Some unit_features) same_image
      (Some (Ok black_pixel)) db_same [mkBookRow 1 "Dune" None None]
    = Ok (r, message) /\
    Observations.matched r = Some (id, title, angle) /\
    exists best all_scores,
      scan same_image unit_features false black_pixel db_same
      = Ok (best, all_scores) /\
      score best >= 0.55.
Proof.
  assert (Hne : db_same <> []) by discriminate.
  assert (Hlow : score (mkBest (Some 1%Z) 1 0%Z) >= Spec.LOW (Spec.style_of false))
    by (simpl; lra).
  destruct (analyse_confident false (mkBest (Some 1%Z) 1 0%Z) 1 [1; 1; 1]
              eq_refl Hlow) as (rt & gap & Han & Hrt).
  pose proof (identify_pipeline unit_features same_image black_pixel db_same
                [mkBookRow 1 "Dune" None None] false _ _ rt gap Hne
                black_pixel_standard scan_db_same Han) as Hid.
  destruct (build_result_cases false [mkBookRow 1 "Dune" None None]
              (mkBest (Some 1%Z) 1 0%Z) rt gap)
    as [(r & Hr & _ & Hnone & _) | (_ & _ & Hmiss)]; [|discriminate Hmiss].
  rewrite Hr in Hid.
  destruct (Observations.matched r) as [[[id title] angle]|] eqn:Hm;
    [|contradiction (Hrt (Hnone eq_refl))].
  destruct (matched_book_meets_low_threshold _ _ _ _ _ _ _ _ _ _ Hid Hm)
    as (gif & img & c & best & all_scores & Hclip & Hfile & Hstyle & Hscan
        & Hscore).
  inversion Hclip; inversion Hfile; subst.
  rewrite black_pixel_standard in Hstyle. inversion Hstyle; subst.
  exists r, EmptyString, id, title, angle. repeat split; try assumption.
  exists best, all_scores. split; assumption.
Defined.

End MoreIdentify.

(** * The API layer *)

(** ** Text helpers *)

Section TextProperties.

Import Ascii Text.

Lemma contains_append_false c s t :
  contains c s = false -> contains c (s ++ t) = contains c t.
Proof.
  induction s as [|d s IH]; simpl; [reflexivity|].
  destruct (Ascii.eqb d c); [discriminate | exact IH].
Qed.

Lemma split_once_append c s t :
  contains c s = false ->
  split_once c (s ++ String c t) = (s, t).
Proof.
  induction s as [|d s IH]; simpl.
  - intros _. now rewrite Ascii.eqb_refl.
  - destruct (Ascii.eqb d c); [discriminate|].
    intros H. now rewrite (IH H).
Qed.

(** A data URL gives its payload: for a header without comma,
    ["data:" + header + "," + payload] yields [payload]; and a string that
    does not start with ["data:"] is taken as it is. *)
Theorem b64data_of_data_url (header payload other : string) :
  contains ","%char header = false ->
  String.prefix "data:" other = false ->
  b64data ("data:" ++ header ++ String ","%char payload) = payload /\
  b64data other = other.
Proof.
  intros Hheader Hother. split.
  - unfold b64data.
    assert (Hsplit : split_once ","%char ("data:" ++ header ++ String ","%char payload)
                     = (("data:" ++ header)%string, payload)).
    { change ("data:" ++ header ++ String ","%char payload)%string
        with (String "d"%char (String "a"%char (String "t"%char (String "a"%char (String ":"%char
                (header ++ String ","%char payload)))))).
      cbn [split_once Ascii.eqb Bool.eqb].
      now rewrite (split_once_append ","%char header payload Hheader). }
    assert (Hhas : contains ","%char ("data:" ++ header ++ String ","%char payload) = true).
    { change ("data:" ++ header ++ String ","%char payload)%string
        with (String "d"%char (String "a"%char (String "t"%char (String "a"%char (String ":"%char
                (header ++ String ","%char payload)))))).
      cbn [contains Ascii.eqb Bool.eqb].
      rewrite (contains_append_false ","%char header _ Hheader). simpl.
      reflexivity. }
    assert (Hpre : String.prefix "data:"
                     ("data:" ++ header ++ String ","%char payload) = true)
      by (simpl; destruct (header ++ String ","%char payload)%string;
          reflexivity).
    rewrite Hpre, Hsplit, Hhas. reflexivity.
  - unfold b64data. rewrite Hother. reflexivity.
Qed.

Lemma b64data_of_data_url_witness :
  b64data "data:image/png;base64,iVBORw0KGgo=" = "iVBORw0KGgo="%string /\
  b64data "iVBORw0KGgo=" = "iVBORw0KGgo="%string.
Proof.
  apply (b64data_of_data_url "image/png;base64" "iVBORw0KGgo=" "iVBORw0KGgo=");
    reflexivity.
Defined.

(** The title shown in the placeholder image is never longer than 13
    characters; a title of at most 10 characters is shown whole, and a
    longer one keeps its first 10 characters, followed by three dots. *)
Theorem safe_title_bounded (char : Type) (dot : char) (title : list char) :
  (length (safe_title char dot title) <= 13)%nat /\
  ((length title <= 10)%nat -> safe_title char dot title = title) /\
  ((10 < length title)%nat ->
   safe_title char dot title = firstn 10 title ++ [dot; dot; dot] /\
   length (safe_title char dot title) = 13%nat).
Proof.
  unfold safe_title.
  destruct (Nat.ltb_spec 10 (length title)) as [Hlong | Hshort].
  - assert (Hlen : length (firstn 10 title ++ [dot; dot; dot]) = 13%nat)
      by (rewrite length_app, length_firstn, Nat.min_l by lia; reflexivity).
    repeat split; intros; try lia; try reflexivity; assumption.
  - repeat split; intros; try lia; reflexivity.
Qed.

Lemma safe_title_bounded_witness :
  safe_title nat 0%nat [1; 2; 3]%nat = [1; 2; 3]%nat /\
  length (safe_title nat 0%nat [1; 2; 3; 4; 5; 6; 7; 8; 9; 10; 11; 12]%nat)
  = 13%nat.
Proof.
  destruct (safe_title_bounded nat 0%nat [1; 2; 3]%nat) as (_ & Hshort & _).
  destruct (safe_title_bounded nat 0%nat
              [1; 2; 3; 4; 5; 6; 7; 8; 9; 10; 11; 12]%nat) as (_ & _ & Hlong).
  split; [apply Hshort; simpl; lia | apply Hlong; simpl; lia].
Defined.

End TextProperties.

(** ** Conversion of numpy values *)

Section JsonProperties.

Import Json.


Lemma pyobj_induction (P : pyobj -> Prop) :
  (forall s, P (Numpy s)) ->
  (forall a, P (NdArray a)) ->
  (forall items, Forall (fun kv => P (snd kv)) items -> P (Dict items)) ->
  (forall l, Forall P l -> P (List l)) ->
  (forall l, Forall P l -> P (Tuple l)) ->
  (forall item text, P (WithItem item text)) ->
  (forall s, P (Plain s)) ->
  forall obj, P obj.
Proof.
  intros HN HA HD HL HT HW HP. fix IH 1. intros [s | a | items | l | l | i t | s].
  - apply HN.
  - apply HA.
  - apply HD. induction items as [|[k v] items IHitems]; constructor.
    + apply IH.
    + exact IHitems.
  - apply HL. induction l as [|x l IHl]; constructor; [apply IH | exact IHl].
  - apply HT. induction l as [|x l IHl]; constructor; [apply IH | exact IHl].
  - apply HW.
  - apply HP.
Qed.




Lemma convert_json_like_fixed (obj : pyobj) :
  json_like obj = true -> convert_numpy_types obj = obj.
Proof.
  induction obj as [s | a | items IH | l IH | l IH | item text | s]
    using pyobj_induction; simpl; try discriminate; try reflexivity.
  - intros Hall. f_equal. rewrite forallb_forall in Hall.
    rewrite Forall_forall in IH.
    rewrite <- (map_id items) at 2. apply map_ext_in.
    intros [k v] Hin. f_equal. apply (IH _ Hin). apply (Hall _ Hin).
  - intros Hall. f_equal. rewrite forallb_forall in Hall.
    rewrite Forall_forall in IH.
    rewrite <- (map_id l) at 2. apply map_ext_in.
    intros x Hin. apply (IH _ Hin). apply (Hall _ Hin).
Qed.



(** The conversion keeps the shape of containers: a dictionary keeps its
    keys in their order, and a list or tuple of n entries becomes a list
    of n entries. *)
Theorem convert_numpy_types_keeps_shape (items : list (string * pyobj))
  (l : list pyobj) :
  (exists items', convert_numpy_types (Dict items) = Dict items' /\
                  map fst items' = map fst items) /\
  (exists l', convert_numpy_types (List l) = List l' /\ length l' = length l) /\
  (exists l', convert_numpy_types (Tuple l) = List l' /\ length l' = length l).
Proof.
  split; [|split]; simpl; eexists; (split; [reflexivity|]).
  - rewrite map_map. apply map_ext. intros [k v]; reflexivity.
  - apply length_map.
  - apply length_map.
Qed.

End JsonProperties.

(** ** The identification endpoints *)

Section ApiProperties.

Import Py Json Api.

Lemma encode_json_like (r : Engine.result) : json_like (encode r) = true.
Proof.
  destruct r as [| | ? ? ? ? ? ? ? ? d | ? ? ? ? ? ? ? d]; try reflexivity;
    destruct d as [? ? ? ? [g|]]; destruct id; reflexivity.
Qed.

(** What the common end of the endpoints makes of an answer whose two
    components exclude each other. *)
Lemma reply_of_exclusive (r : Engine.result) (message : string) :
  (r = Engine.Empty <-> message <> EmptyString) ->
  (r <> Engine.Empty /\ message = EmptyString /\
   reply_of (r, message)
   = Dict [("success"%string, bool_ true); ("book"%string, encode r);
           ("message"%string, str_ "識別成功")])
  \/ (r = Engine.Empty /\ message <> EmptyString /\
      reply_of (r, message) = failure message).
Proof.
  intros [Hempty Hmessage]. unfold reply_of.
  destruct r; cbn [nonempty].
  - right. assert (Hm : message <> EmptyString) by (now apply Hempty).
    repeat split; try assumption.
    destruct message; [contradiction | reflexivity].
  - left. split; [discriminate|].
    destruct message as [|c m]; [|exfalso; assert (H : Engine.UnknownBook
      best_match_score suggestion action_needed cartoon_detected = Engine.Empty)
      by (apply Hmessage; discriminate); discriminate H].
    split; [reflexivity|].
    now rewrite (convert_json_like_fixed _ (encode_json_like _)).
  - left. split; [discriminate|].
    destruct message as [|c m]; [|exfalso; assert (H : Engine.UncertainMatch
      id title isbn url similarity_score comparison_method rotation_angle
      warning details = Engine.Empty)
      by (apply Hmessage; discriminate); discriminate H].
    split; [reflexivity|].
    now rewrite (convert_json_like_fixed _ (encode_json_like _)).
  - left. split; [discriminate|].
    destruct message as [|c m]; [|exfalso; assert (H : Engine.BookMatch
      id title isbn url similarity_score comparison_method rotation_angle
      details = Engine.Empty)
      by (apply Hmessage; discriminate); discriminate H].
    split; [reflexivity|].
    now rewrite (convert_json_like_fixed _ (encode_json_like _)).
Qed.

Variable clip : option (StyleClassifier.img_ndarray -> Np.ndarray).
Variable rotate : StyleClassifier.img_ndarray -> Z -> StyleClassifier.img_ndarray.
Variable decode : list Byte.byte -> Py.exc StyleClassifier.img_ndarray.
Variable cover_embeddings : list (Z * Np.ndarray).
Variable books : list Engine.BookRow.
Variable b64decode : string -> Py.exc (list Byte.byte).
Variable megabytes : nat -> string.

Local Notation "'identify_'" :=
  (Api.identify clip rotate decode cover_embeddings books).

Lemma identified_reply (content : list Byte.byte) :
  exists r message,
    identify_ content = Ok (r, message) /\
    ((r <> Engine.Empty /\ message = EmptyString /\
      reply_of (r, message)
      = Dict [("success"%string, bool_ true); ("book"%string, encode r);
              ("message"%string, str_ "識別成功")])
     \/ (r = Engine.Empty /\ message <> EmptyString /\
         reply_of (r, message) = failure message)).
Proof.
  unfold Api.identify.
  destruct (identify_answer_exclusive clip rotate (Some (decode content))
              cover_embeddings books) as (r & message & Hid & Hex).
  exists r, message. split; [assumption|]. now apply reply_of_exclusive.
Qed.

(** The file endpoint. An upload whose content type is missing or does not
    start with "image/", that is larger than 10 * 1024 * 1024 bytes, or
    that is empty, is refused with success = false. Any other upload, up to
    and including exactly 10 * 1024 * 1024 bytes, is identified: the reply
    has success = true and carries the result as it is when the result is
    not empty, and otherwise has success = false and the message of the
    identification, never the fallback message. *)
Theorem api_identify_book_file_reply (content_type : option string)
  (content : list Byte.byte) :
  (not_an_image content_type = true \/
   (10 * 1024 * 1024 < Z.of_nat (length content))%Z \/ content = [] ->
   exists message,
     api_identify_book_file clip rotate decode cover_embeddings books
       megabytes content_type content = Ok (failure message)) /\
  (not_an_image content_type = false ->
   (Z.of_nat (length content) <= 10 * 1024 * 1024)%Z -> content <> [] ->
   exists r message,
     identify_ content = Ok (r, message) /\
     ((r <> Engine.Empty /\
       api_identify_book_file clip rotate decode cover_embeddings books
         megabytes content_type content
       = Ok (Dict [("success"%string, bool_ true); ("book"%string, encode r);
                   ("message"%string, str_ "識別成功")]))
      \/ (r = Engine.Empty /\ message <> EmptyString /\
          api_identify_book_file clip rotate decode cover_embeddings books
            megabytes content_type content = Ok (failure message)))).
Proof.
  unfold api_identify_book_file. split.
  - intros Hbad.
    destruct (not_an_image content_type); cbn [try_except]; [eauto|].
    destruct (Z.ltb_spec (10 * 1024 * 1024) (Z.of_nat (length content)));
      cbn [try_except]; [eauto|].
    destruct Hbad as [Hbad | [Hbad | ->]]; [discriminate | lia |].
    simpl. eauto.
  - intros -> Hsize Hne.
    destruct (Z.ltb_spec (10 * 1024 * 1024) (Z.of_nat (length content)));
      [lia|].
    destruct (Nat.eqb_spec (length content) 0) as [Hzero | _].
    { destruct content; [contradiction | discriminate]. }
    destruct (identified_reply content) as (r & message & Hid & Hreply).
    exists r, message. split; [assumption|]. rewrite Hid. cbn [bind try_except].
    destruct Hreply as [(Hr & _ & ->) | (Hr & Hm & ->)]; [left | right]; auto.
Qed.

(** The JSON endpoint. An empty image string, one whose base64 text does
    not decode, or one that decodes to no byte, is refused with success =
    false. Otherwise the decoded bytes are identified and the reply is built
    as by the file endpoint. *)
Theorem api_identify_book_reply (image : string) :
  (image = EmptyString \/
   (exists e, b64decode (Text.b64data image) = Raise e) \/
   b64decode (Text.b64data image) = Ok [] ->
   exists message,
     api_identify_book clip rotate decode cover_embeddings books b64decode image
     = Ok (failure message)) /\
  (forall image_bytes,
      image <> EmptyString ->
      b64decode (Text.b64data image) = Ok image_bytes -> image_bytes <> [] ->
      exists r message,
        identify_ image_bytes = Ok (r, message) /\
        ((r <> Engine.Empty /\
          api_identify_book clip rotate decode cover_embeddings books b64decode
            image
          = Ok (Dict [("success"%string, bool_ true); ("book"%string, encode r);
                      ("message"%string, str_ "識別成功")]))
         \/ (r = Engine.Empty /\ message <> EmptyString /\
             api_identify_book clip rotate decode cover_embeddings books
               b64decode image = Ok (failure message)))).
Proof.
  unfold api_identify_book. split.
  - intros [-> | Hbad]; [simpl; eauto|].
    destruct image as [|c image']; [simpl; eauto|].
    destruct Hbad as [[e ->] | ->]; cbn [bind try_except]; eauto.
  - intros image_bytes Hne Hdecode Hbytes.
    destruct image as [|c image']; [contradiction|].
    rewrite Hdecode. cbn [bind try_except].
    destruct image_bytes as [|b bs]; [contradiction|]. cbn [try_except].
    destruct (identified_reply (b :: bs)) as (r & message & Hid & Hreply).
    exists r, message. split; [assumption|]. rewrite Hid. cbn [bind try_except].
    destruct Hreply as [(Hr & _ & ->) | (Hr & Hm & ->)]; [left | right]; auto.
Qed.

End ApiProperties.

Lemma api_identify_book_file_reply_witness :
  (exists message,
      Api.api_identify_book_file (Some Fixtures.unit_features)
        Fixtures.same_image ApiFixtures.decode_black Fixtures.db_same []
        ApiFixtures.no_text (Some "text/plain"%string) [Byte.x00]
      = Py.Ok (Api.failure message)) /\
  exists r message,
    Api.identify (Some Fixtures.unit_features) Fixtures.same_image
      ApiFixtures.decode_black Fixtures.db_same [] [Byte.x00]
    = Py.Ok (r, message).
Proof.
  split.
  - apply (proj1 (api_identify_book_file_reply (Some Fixtures.unit_features)
                    Fixtures.same_image ApiFixtures.decode_black
                    Fixtures.db_same [] ApiFixtures.no_text
                    (Some "text/plain"%string) [Byte.x00])).
    left. reflexivity.
  - destruct (proj2 (api_identify_book_file_reply (Some Fixtures.unit_features)
                       Fixtures.same_image ApiFixtures.decode_black
                       Fixtures.db_same [] ApiFixtures.no_text
                       (Some "image/png"%string) [Byte.x00]))
      as (r & message & Hid & _); [reflexivity | simpl; lia | discriminate |].
    exists r, message. exact Hid.
Defined.

Lemma api_identify_book_reply_witness :
  (exists message,
      Api.api_identify_book (Some Fixtures.unit_features) Fixtures.same_image
        ApiFixtures.decode_black Fixtures.db_same [] ApiFixtures.b64_one_byte
        EmptyString
      = Py.Ok (Api.failure message)) /\
  exists r message,
    Api.identify (Some Fixtures.unit_features) Fixtures.same_image
      ApiFixtures.decode_black Fixtures.db_same [] [Byte.x00]
    = Py.Ok (r, message).
Proof.
  split.
  - apply (proj1 (api_identify_book_reply (Some Fixtures.unit_features)
                    Fixtures.same_image ApiFixtures.decode_black
                    Fixtures.db_same [] ApiFixtures.b64_one_byte EmptyString)).
    left. reflexivity.
  - destruct (proj2 (api_identify_book_reply (Some Fixtures.unit_features)
                       Fixtures.same_image ApiFixtures.decode_black
                       Fixtures.db_same [] ApiFixtures.b64_one_byte
                       "data:image/png;base64,AA=="%string) [Byte.x00])
      as (r & message & Hid & _); [discriminate | reflexivity | discriminate |].
    exists r, message. exact Hid.
Defined.

(** ** Integrity of the two tables *)

Section Integrity.

Import Py StyleClassifier Engine.

Lemma fetchone_finds books i :
  (exists row, In row books /\ row_id row = i) ->
  fetchone books (Some i) <> None.
Proof.
  intros (row & Hin & Hid) Hnone. simpl in Hnone.
  apply (find_none _ _ Hnone) in Hin. rewrite Hid, Z.eqb_refl in Hin.
  discriminate.
Qed.

Lemma no_miss_under_integrity clip rotate image_file cover_embeddings books :
  (forall i v, In (i, v) cover_embeddings ->
               exists row, In row books /\ row_id row = i) ->
  identify_book_with_rotation_enhanced clip rotate image_file cover_embeddings
    books <> Ok (Empty, "未找到匹配的書籍"%string).
Proof.
  intros Hfk. unfold identify_book_with_rotation_enhanced.
  destruct clip as [get_image_features|]; cbn [bind try_except];
    [|discriminate].
  destruct image_file as [[pil_img | e]|]; cbn [bind try_except];
    try discriminate.
  destruct (detect_cartoon_book_simple pil_img) as [is_cartoon | e];
    cbn [bind try_except]; [|discriminate].
  destruct cover_embeddings as [|item items]; cbn [bind try_except];
    [discriminate|].
  destruct (scan rotate get_image_features is_cartoon pil_img (item :: items))
    as [[best all_scores] | e] eqn:Hscan; cbn [bind try_except];
    [|discriminate].
  destruct (analyse is_cartoon best all_scores) as [[result_type score_gap] | e]
    eqn:Han; cbn [bind try_except]; [|discriminate].
  destruct (build_result_cases is_cartoon books best result_type score_gap)
    as [(r & -> & _) | (-> & Hrt & Hmiss)]; [discriminate|].
  intros _.
  destruct (analyse_not_unknown _ _ _ _ _ Han Hrt) as [Htruthy _].
  apply scan_tracks in Hscan. destruct Hscan as [_ (_ & _ & Hbest)].
  destruct (book_id best) as [i|]; [|discriminate Htruthy].
  destruct Hbest as (_ & k & v & Hp & _).
  apply nth_error_In, in_scan_order in Hp. destruct Hp as [_ Hitem].
  exact (fetchone_finds books i (Hfk i v Hitem) Hmiss).
Qed.

(** When every record of the embedding store has a row in [books], as the
    foreign key of [cover_embeddings] demands, the identification never
    answers "no matching book found": a winning identifier always has its
    metadata. *)
Theorem identify_never_misses_under_integrity clip rotate image_file
  cover_embeddings books :
  (forall i v, In (i, v) cover_embeddings ->
               exists row, In row books /\ row_id row = i) ->
  identify_book_with_rotation_enhanced clip rotate image_file cover_embeddings
    books <> Ok (Empty, "未找到匹配的書籍"%string).
Proof. apply no_miss_under_integrity. Qed.

Lemma identify_never_misses_under_integrity_witness :
  identify_book_with_rotation_enhanced (Some Fixtures.unit_features)
    Fixtures.same_image (Some (Ok Fixtures.black_pixel)) Fixtures.db_same
    [mkBookRow 1 "Dune" None None]
  <> Ok (Empty, "未找到匹配的書籍"%string).
Proof.
  apply identify_never_misses_under_integrity.
  intros i v [Heq | []]. inversion Heq; subst.
  exists (mkBookRow 1 "Dune" None None). split; [now left | reflexivity].
Defined.

End Integrity.

(** ** Deleting a book *)

Section DeleteProperties.

Import Py Store.

Variable remove_fails : string -> bool.





End DeleteProperties.


